(** * Background photo upload: a shallow embedding of [src/index.tsx]

    The module uploads a list of images in batches through an injected
    axios instance, queues images submitted while a run is active and
    retries failed images.  The embedding keeps the two module-level
    arrays ([queuedImages], [failedImages]) and the running flag of the
    background service in an explicit [World], and records every call
    that leaves the module (compressor, transport, caller callbacks,
    background service) as an [Event] of a trace.

    Modelling conventions.
    - [async] code is sequentialised: the promises of one batch settle in
      batch order.  [Promise.allSettled] is the only point where the task
      yields between batches, and that is where requests of other callers
      are let in ([awaitAllSettled]).
    - The collaborators (compressor, transport, clock, platform, the
      requests arriving while the task is suspended) are the fields of a
      [Host].  The transport and the compressor may answer differently
      each time: they are indexed by the number of submissions so far.
    - Caller callbacks are opaque handles; calling one appends an event.
      [onSuccess] may throw, as the host decides: the exception reaches
      the [catch] chained after the [then] of the upload promise.  An
      exception of [onBatchComplete] is caught and logged by the source
      and changes nothing here.  [onFailure], [onServiceStart] and
      [onServiceEnd] are taken to return normally.  [console.log]
      output is not recorded.
    - [batchSize] and [maxRetries] are natural numbers, [Date.now()] is
      the host's clock read at a submission number: the one current when
      [batch.map] runs for a start time, the one after the image's own
      submission for an end time.
    - The loops of the source ([for (i = 0; i < n; i += batchSize)],
      [while (...)]) need not terminate ([batchSize = 0]), so they take
      fuel and return [None] when it runs out. *)

From Stdlib Require Import String ZArith Bool Arith List Lia.
Import ListNotations.
Local Open Scope string_scope.
Local Open Scope list_scope.
Local Open Scope nat_scope.

(** ** Data model *)

(** Response bodies are JSON values; [JNull] stands for [null] and
    [undefined], [JObj []] for the literal [{}]. *)
#[warnings="-register-all"] Inductive Json : Type :=
| JNull
| JText (s : string)
| JNum (n : Z)
| JObj (fields : list (string * Json)).

Inductive ImageStatus : Type := draft | uploaded | failed.

(** [interface Image]; [extras] keeps the insertion order that
    [Object.entries] enumerates. *)
Record Image : Type := {
  photoId : string;
  status : ImageStatus;
  uri : string;
  type : string;
  fileName : string;
  extras : list (string * string)
}.

(** The part of an axios response the module reads. *)
Record AxiosResponse : Type := {
  resp_data : Json;
  resp_status : option Z
}.

(** [AxiosError]: [message] and the optional [response]. *)
Record AxiosError : Type := {
  message : option string;
  response : option AxiosResponse
}.

(** [interface ErrorResponse]. *)
Record ErrorResponse : Type := {
  er_error : Json;
  er_status : Z
}.

(** Handles for the functions and objects the caller passes in. *)
Definition Callback : Type := nat.
Definition AxiosInstance : Type := nat.

(** The parts appended to a [FormData], in order. *)
Inductive FormPart : Type :=
| FilePart (field : string) (file_uri file_type file_name : string)
| TextPart (key value : string).

Definition FormData : Type := list FormPart.

(** [interface UploadOptions] and the argument object of
    [startBackgroundUpload]; [None] is an omitted optional member. *)
Record UploadOptions : Type := {
  uo_axiosInstance : AxiosInstance;
  uo_images : list Image;
  uo_url : string;
  uo_batchSize : option nat;
  uo_maxRetries : option nat;
  uo_imageCompression : option bool
}.

Record UploadRequest : Type := {
  uploadOptions : UploadOptions;
  rq_onSuccess : option Callback;
  rq_onFailure : option Callback;
  rq_onBatchComplete : option Callback;
  rq_onServiceStart : option Callback;
  rq_onServiceEnd : option Callback
}.

(** [interface TaskData], the [parameters] handed to the task. *)
Record TaskData : Type := {
  images : list Image;
  batchSize : nat;
  onSuccess : option Callback;
  onFailure : option Callback;
  url : string;
  maxRetries : nat;
  imageCompression : bool;
  axiosInstance : AxiosInstance;
  onBatchComplete : option Callback;
  onServiceEnd : option Callback
}.

(** What a settled upload promise carries.  The first loop of
    [uploadTask] resolves to [{photoId, startTime, endTime}], the other
    two resolve to the axios response itself; every loop rejects with
    [{error, photoId}], the retry loop adding [retryCount]. *)
Inductive Fulfilment : Type :=
| Timed (id : string) (startTime endTime : Z)
| Responded (r : AxiosResponse).

Record Rejection : Type := {
  rej_error : string;
  rej_photoId : string;
  rej_retryCount : option nat
}.

Inductive Settled : Type :=
| Fulfilled (value : Fulfilment)
| Rejected (reason : Rejection).

(** Calls that leave the module.  [EvPost] records the arguments of
    [axiosInstance.post] and, with them, the image that [uploadImage] is
    submitting. *)
Inductive Event : Type :=
| EvCompress (source : string)
| EvPost (image : Image) (inst : AxiosInstance) (target : string) (form : FormData)
| EvOnSuccess (cb : Callback) (data : Json) (id : string)
| EvOnFailure (cb : Callback) (err : ErrorResponse + AxiosError) (id : string)
| EvBatchComplete (cb : Callback) (result : list Settled) (batchCount : nat)
| EvBackgroundStart
| EvBackgroundStop
| EvServiceStart (cb : Callback)
| EvServiceEnd (cb : Callback).

(** The module-level state, the running flag of the background service,
    and the two counters that index the host's answers: [submitted]
    counts transport calls, [suspended] counts the waits on
    [Promise.allSettled]. *)
Record World : Type := {
  queuedImages : list Image;
  failedImages : list Image;
  isRunning : bool;
  submitted : nat;
  suspended : nat
}.

(** The collaborators.  [thrown_by_onSuccess f data id k] is what the
    success callback [f] throws when called with [data] and [id] for
    submission number [k], as far as the [catch] handler reads it (its
    [message] and [response]); [None] when it returns. *)
Record Host : Type := {
  compress : string -> nat -> option string;
  post : AxiosInstance -> string -> FormData -> nat -> AxiosResponse + AxiosError;
  now : nat -> Z;
  platformOS : string;
  arrivals : nat -> list UploadRequest;
  thrown_by_onSuccess : Callback -> Json -> string -> nat -> option AxiosError
}.

(** The three copies of the batch loop in [uploadTask] differ only in
    what a settled promise carries. *)
Inductive Phase : Type :=
| Primary
| Drain
| Retry (retryCount : nat).

Inductive StartOutcome : Type :=
| Queued
| Started (parameters : TaskData).

(** ** Small helpers of the embedding *)

(** [x || d] on strings: the empty string is falsy. *)
Definition str_or (x d : string) : string :=
  if String.eqb x "" then d else x.

(** [cb && cb(...)]. *)
Definition call (cb : option Callback) (ev : Callback -> Event) : list Event :=
  match cb with
  | Some f => [ev f]
  | None => []
  end.

(** [l.slice(a, b)] for in-range, non-negative bounds. *)
Definition slice {A : Type} (l : list A) (a b : nat) : list A :=
  firstn (b - a) (skipn a l).

Definition set_queued (q : list Image) (w : World) : World :=
  {| queuedImages := q; failedImages := failedImages w;
     isRunning := isRunning w; submitted := submitted w;
     suspended := suspended w |}.

Definition set_failed (f : list Image) (w : World) : World :=
  {| queuedImages := queuedImages w; failedImages := f;
     isRunning := isRunning w; submitted := submitted w;
     suspended := suspended w |}.

Definition set_running (b : bool) (w : World) : World :=
  {| queuedImages := queuedImages w; failedImages := failedImages w;
     isRunning := b; submitted := submitted w;
     suspended := suspended w |}.

Definition next_submission (w : World) : World :=
  {| queuedImages := queuedImages w; failedImages := failedImages w;
     isRunning := isRunning w; submitted := S (submitted w);
     suspended := suspended w |}.

Definition next_suspension (w : World) : World :=
  {| queuedImages := queuedImages w; failedImages := failedImages w;
     isRunning := isRunning w; submitted := submitted w;
     suspended := S (suspended w) |}.

(** ** Reading a trace *)

(** The images handed to the transport, in order. *)
Fixpoint posted (evs : list Event) : list Image :=
  match evs with
  | [] => []
  | EvPost image _ _ _ :: rest => image :: posted rest
  | _ :: rest => posted rest
  end.

(** The identifiers passed to [onSuccess] and to [onFailure]. *)
Fixpoint succeeded (evs : list Event) : list string :=
  match evs with
  | [] => []
  | EvOnSuccess _ _ id :: rest => id :: succeeded rest
  | _ :: rest => succeeded rest
  end.

Fixpoint rejected (evs : list Event) : list string :=
  match evs with
  | [] => []
  | EvOnFailure _ _ id :: rest => id :: rejected rest
  | _ :: rest => rejected rest
  end.

(** The reports passed to [onBatchComplete]. *)
Fixpoint reports (evs : list Event) : list (nat * list Settled) :=
  match evs with
  | [] => []
  | EvBatchComplete _ result n :: rest => (n, result) :: reports rest
  | _ :: rest => reports rest
  end.

(** The calls of [onServiceEnd]. *)
Fixpoint service_ends (evs : list Event) : list Callback :=
  match evs with
  | [] => []
  | EvServiceEnd cb :: rest => cb :: service_ends rest
  | _ :: rest => service_ends rest
  end.

(** The batches as an observer sees them: the images posted since the
    previous report ([cur] so far), with the batch number of the report
    that closes them. *)
Fixpoint batches_seen (evs : list Event) (cur : list Image)
  : list (nat * list Image) :=
  match evs with
  | [] => []
  | EvPost image _ _ _ :: rest => batches_seen rest (cur ++ [image])
  | EvBatchComplete _ _ n :: rest => (n, cur) :: batches_seen rest []
  | _ :: rest => batches_seen rest cur
  end.

Definition is_report (ev : Event) : bool :=
  match ev with
  | EvBatchComplete _ _ _ => true
  | _ => false
  end.

Definition not_report (ev : Event) : bool := negb (is_report ev).

(** How many times [id] occurs. *)
Definition times (id : string) (ids : list string) : nat :=
  List.length (filter (String.eqb id) ids).

(** How many images of [xs] carry the identifier [id]. *)
Definition occ (id : string) (xs : list Image) : nat :=
  times id (map photoId xs).

(** [ceil (n / b)]. *)
Definition ceil_div (n b : nat) : nat := (n + b - 1) / b.

(** ** The functions of the module *)

(** [getError]: a response on the error gives [{error, status}], with
    [?? {}] and [?? 0] for missing members; otherwise the error itself. *)
Definition getError (error : AxiosError) : ErrorResponse + AxiosError :=
  match response error with
  | Some r =>
      inl {| er_error := match resp_data r with
                         | JNull => JObj []
                         | d => d
                         end;
             er_status := match resp_status r with
                          | Some c => c
                          | None => 0%Z
                          end |}
  | None => inr error
  end.

Section Engine.

Variable H : Host.

(** [compressImage]: the compressor's answer, or the input when it
    throws. *)
Definition compressImage (u : string) (k : nat) : list Event * string :=
  ([EvCompress u],
   match compress H u k with
   | Some u' => u'
   | None => u
   end).

(** The form built by [uploadImage]. *)
Definition formData (image : Image) (imageUri : string) : FormData :=
  FilePart "file" imageUri
           (str_or (type image) "image/jpeg")
           (str_or (fileName image) "photo.jpg")
  :: map (fun kv => TextPart (fst kv) (snd kv)) (extras image).

(** [uploadImage] at submission number [k]: the events it causes and the
    transport's answer ([inr] is a rejected promise). *)
Definition uploadImage (image : Image) (target : string)
    (compression : bool) (inst : AxiosInstance) (k : nat)
  : list Event * (AxiosResponse + AxiosError) :=
  let '(evs, imageUri) :=
    if compression then compressImage (uri image) k
    else ([], uri image) in
  let form := formData image imageUri in
  (evs ++ [EvPost image inst target form], post H inst target form k).

(** [startBackgroundUpload]: when the service is running the images are
    pushed on the queue and nothing else happens; otherwise the service
    is started with the task parameters (defaults filled in) and, on iOS,
    [onServiceStart] is called.  The started task is returned, it runs as
    [uploadTask].  Reading [BackgroundService.isRunning()] and raising
    the flag in [BackgroundService.start] are one step here: no other
    call of [startBackgroundUpload] comes between the two. *)
Definition startBackgroundUpload (rq : UploadRequest) (w : World)
  : World * list Event * StartOutcome :=
  let o := uploadOptions rq in
  if isRunning w then
    (set_queued (queuedImages w ++ uo_images o) w, [], Queued)
  else
    let parameters :=
      {| images := uo_images o;
         batchSize := match uo_batchSize o with Some b => b | None => 10 end;
         onSuccess := rq_onSuccess rq;
         onFailure := rq_onFailure rq;
         url := uo_url o;
         maxRetries := match uo_maxRetries o with Some m => m | None => 3 end;
         imageCompression :=
           match uo_imageCompression o with Some c => c | None => true end;
         axiosInstance := uo_axiosInstance o;
         onBatchComplete := rq_onBatchComplete rq;
         onServiceEnd := rq_onServiceEnd rq |} in
    (set_running true w,
     EvBackgroundStart ::
       (if String.eqb (platformOS H) "ios"
        then call (rq_onServiceStart rq) EvServiceStart else []),
     Started parameters).

(** What the success callback of the task throws, if anything. *)
Definition thrown (t : TaskData) (resp : AxiosResponse) (image : Image)
    (k : nat) : option AxiosError :=
  match onSuccess t with
  | Some f => thrown_by_onSuccess H f (resp_data resp) (photoId image) k
  | None => None
  end.

(** The [catch] handler of an upload promise, run for [error] after the
    events [before]: call [onFailure], push the image on [failedImages],
    reject. *)
Definition caught (ph : Phase) (t : TaskData) (image : Image)
    (before : list Event) (error : AxiosError) (w : World)
  : World * list Event * Settled :=
  (set_failed (failedImages w ++ [image]) w,
   before ++ call (onFailure t)
                  (fun f => EvOnFailure f (getError error) (photoId image)),
   Rejected {| rej_error :=
                 match message error with
                 | Some m => str_or m "Unknown error"
                 | None => "Unknown error"
                 end;
               rej_photoId := photoId image;
               rej_retryCount :=
                 match ph with
                 | Retry retryCount => Some retryCount
                 | _ => None
                 end |}).

(** One element of [batch.map(...)], created when [mapped] submissions
    had been made: upload, then the [then] handler, and the [catch]
    handler when the upload is rejected or the [then] handler throws. *)
Definition uploadPromise (ph : Phase) (t : TaskData) (mapped : nat)
    (image : Image) (w : World) : World * list Event * Settled :=
  let startTime := now H mapped in
  let '(evs, answer) :=
    uploadImage image (url t) (imageCompression t) (axiosInstance t)
                (submitted w) in
  let w1 := next_submission w in
  match answer with
  | inl resp =>
      let endTime := now H (submitted w1) in
      let called :=
        call (onSuccess t)
             (fun f => EvOnSuccess f (resp_data resp) (photoId image)) in
      match thrown t resp image (submitted w) with
      | Some error => caught ph t image (evs ++ called) error w1
      | None =>
          (w1, evs ++ called,
           Fulfilled match ph with
                     | Primary => Timed (photoId image) startTime endTime
                     | _ => Responded resp
                     end)
      end
  | inr error => caught ph t image evs error w1
  end.

(** [batch.map(...)] followed to settlement. *)
Fixpoint uploadPromises (ph : Phase) (t : TaskData) (mapped : nat)
    (batch : list Image) (w : World) : World * list Event * list Settled :=
  match batch with
  | [] => (w, [], [])
  | image :: rest =>
      let '(w1, e1, s) := uploadPromise ph t mapped image w in
      let '(w2, e2, ss) := uploadPromises ph t mapped rest w1 in
      (w2, e1 ++ e2, s :: ss)
  end.

(** Requests issued by other callers while the task waits: each is a
    call of [startBackgroundUpload].  During a run the service is
    running, so every one of them takes the queueing branch; a task
    started from here (service not running) is not followed. *)
Fixpoint serve_requests (rqs : list UploadRequest) (w : World) : World :=
  match rqs with
  | [] => w
  | rq :: rest => serve_requests rest (fst (fst (startBackgroundUpload rq w)))
  end.

Definition awaitAllSettled (w : World) : World :=
  next_suspension (serve_requests (arrivals H (suspended w)) w).

(** One of the three [for (let i = 0; i < xs.length; i += batchSize)]
    loops of [uploadTask], from offset [i]: slice the batch, run its
    promises, wait for all of them, report the batch. *)
Fixpoint batchLoop (fuel : nat) (ph : Phase) (t : TaskData)
    (xs : list Image) (i : nat) (w : World) : option (World * list Event) :=
  match fuel with
  | 0 => None
  | S fuel' =>
      if i <? length xs then
        let batch := slice xs i (i + batchSize t) in
        let '(w1, e1, result) := uploadPromises ph t (submitted w) batch w in
        let currentBatch := i / batchSize t + 1 in
        let w2 := awaitAllSettled w1 in
        let e2 := call (onBatchComplete t)
                       (fun f => EvBatchComplete f result currentBatch) in
        match batchLoop fuel' ph t xs (i + batchSize t) w2 with
        | Some (w3, e3) => Some (w3, e1 ++ e2 ++ e3)
        | None => None
        end
      else Some (w, [])
  end.

(** [while (failedImages.length > 0 && retryCount < maxRetries)]: copy
    and clear the failed images, run the batch loop over the copy,
    count the round.  The final [retryCount] is returned with the world. *)
Fixpoint retryLoop (fuel : nat) (t : TaskData) (retryCount : nat)
    (w : World) : option (World * list Event * nat) :=
  match fuel with
  | 0 => None
  | S fuel' =>
      if (0 <? length (failedImages w)) && (retryCount <? maxRetries t) then
        let failedImagesCopy := failedImages w in
        let w1 := set_failed [] w in
        match batchLoop fuel' (Retry retryCount) t failedImagesCopy 0 w1 with
        | Some (w2, e2) =>
            match retryLoop fuel' t (S retryCount) w2 with
            | Some (w3, e3, n) => Some (w3, e2 ++ e3, n)
            | None => None
            end
        | None => None
        end
      else Some (w, [], retryCount)
  end.

(** The queue-drain block of [uploadTask]. *)
Definition drainQueue (fuel : nat) (t : TaskData) (w : World)
  : option (World * list Event) :=
  if 0 <? length (queuedImages w) then
    let queuedImagesCopy := queuedImages w in
    batchLoop fuel Drain t queuedImagesCopy 0 (set_queued [] w)
  else Some (w, []).

(** The failed-images block of [uploadTask]. *)
Definition retryFailed (fuel : nat) (t : TaskData) (w : World)
  : option (World * list Event) :=
  if 0 <? length (failedImages w) then
    match retryLoop fuel t 0 w with
    | Some (w', e, _) => Some (w', e)
    | None => None
    end
  else Some (w, []).

(** The tail of [uploadTask]: stop the service, call [onServiceEnd] on
    iOS, reset both arrays. *)
Definition stopService (t : TaskData) (w : World) : World * list Event :=
  (set_failed [] (set_queued [] (set_running false w)),
   EvBackgroundStop ::
     (if String.eqb (platformOS H) "ios"
      then call (onServiceEnd t) EvServiceEnd else [])).

(** [uploadTask]: nothing without task data; otherwise the first pass
    over [images], the queue drain, the retries, and the stop. *)
Definition uploadTask (fuel : nat) (taskData : option TaskData) (w : World)
  : option (World * list Event) :=
  match taskData with
  | None => Some (w, [])
  | Some t =>
      match batchLoop fuel Primary t (images t) 0 w with
      | Some (w1, e1) =>
          match drainQueue fuel t w1 with
          | Some (w2, e2) =>
              match retryFailed fuel t w2 with
              | Some (w3, e3) =>
                  let '(w4, e4) := stopService t w3 in
                  Some (w4, e1 ++ e2 ++ e3 ++ e4)
              | None => None
              end
          | None => None
          end
      | None => None
      end
  end.

(** ** What the host decides *)

(** Whether the transport accepts the submission of [image], as number
    [k], and whether the upload promise is rejected: the transport
    rejects the submission, or accepts it and the success callback
    throws. *)
Definition accepted (t : TaskData) (image : Image) (k : nat) : bool :=
  match snd (uploadImage image (url t) (imageCompression t)
                         (axiosInstance t) k) with
  | inl _ => true
  | inr _ => false
  end.

Definition rejects (t : TaskData) (image : Image) (k : nat) : bool :=
  match snd (uploadImage image (url t) (imageCompression t)
                         (axiosInstance t) k) with
  | inl resp =>
      match thrown t resp image k with
      | Some _ => true
      | None => false
      end
  | inr _ => true
  end.

(** The images of [xs] whose promise is rejected, and those the
    transport accepts, when they are submitted one after the other from
    submission number [k] on. *)
Fixpoint rejected_of (t : TaskData) (xs : list Image) (k : nat) : list Image :=
  match xs with
  | [] => []
  | x :: rest =>
      (if rejects t x k then [x] else []) ++ rejected_of t rest (S k)
  end.

Fixpoint accepted_of (t : TaskData) (xs : list Image) (k : nat) : list Image :=
  match xs with
  | [] => []
  | x :: rest =>
      (if accepted t x k then [x] else []) ++ accepted_of t rest (S k)
  end.

(** The events of one submission and of a sequence of them. *)
Definition promise_events (t : TaskData) (image : Image) (k : nat)
  : list Event :=
  let '(evs, answer) :=
    uploadImage image (url t) (imageCompression t) (axiosInstance t) k in
  evs ++ match answer with
         | inl resp =>
             call (onSuccess t)
                  (fun f => EvOnSuccess f (resp_data resp) (photoId image))
             ++ match thrown t resp image k with
                | Some error =>
                    call (onFailure t)
                         (fun f => EvOnFailure f (getError error)
                                               (photoId image))
                | None => []
                end
         | inr error =>
             call (onFailure t)
                  (fun f => EvOnFailure f (getError error) (photoId image))
         end.

Fixpoint item_events (t : TaskData) (xs : list Image) (k : nat) : list Event :=
  match xs with
  | [] => []
  | x :: rest => promise_events t x k ++ item_events t rest (S k)
  end.

(** The images pushed on the queue during [n] consecutive suspensions,
    the first being number [from]. *)
Fixpoint arrived (from n : nat) : list Image :=
  match n with
  | 0 => []
  | S n' =>
      flat_map (fun rq => uo_images (uploadOptions rq)) (arrivals H from)
      ++ arrived (S from) n'
  end.

(** The retry phase as the specification words it: at most [rounds]
    rounds; a round takes the failure set [F] as its snapshot, resubmits
    the snapshot (from submission number [k] on), and the images rejected
    in the round are the next failure set; it stops early on an empty
    set.  The result is the snapshots with their first submission number,
    and the failure set left at the end. *)
Fixpoint retry_plan (t : TaskData) (rounds : nat) (F : list Image) (k : nat)
  : list (list Image * nat) * list Image :=
  match rounds with
  | 0 => ([], F)
  | S rounds' =>
      match F with
      | [] => ([], [])
      | _ :: _ =>
          let '(snapshots, final) :=
            retry_plan t rounds' (rejected_of t F k) (k + List.length F) in
          ((F, k) :: snapshots, final)
      end
  end.

(** The events of the submissions of a list of snapshots. *)
Definition plan_events (t : TaskData) (snapshots : list (list Image * nat))
  : list Event :=
  flat_map (fun s => item_events t (fst s) (snd s)) snapshots.





(** What a run started in world [w] meets: the queue found by the drain
    block (what was queued before, and what arrived during the
    suspensions of the first pass), the failure set found by the retry
    block, and the retry plan from there. *)
Definition drained (t : TaskData) (w : World) : list Image :=
  queuedImages w
  ++ arrived (suspended w) (ceil_div (List.length (images t)) (batchSize t)).

Definition first_failures (t : TaskData) (w : World) : list Image :=
  (failedImages w ++ rejected_of t (images t) (submitted w))
  ++ rejected_of t (drained t w) (submitted w + List.length (images t)).

Definition retries (t : TaskData) (w : World)
  : list (list Image * nat) * list Image :=
  retry_plan t (maxRetries t) (first_failures t w)
             (submitted w + List.length (images t)
              + List.length (drained t w)).

End Engine.



(** The events of a submission: compressor, transport, and the two
    per-item callbacks. *)
Definition is_item_event (ev : Event) : bool :=
  match ev with
  | EvCompress _ | EvPost _ _ _ _ | EvOnSuccess _ _ _ | EvOnFailure _ _ _ => true
  | _ => false
  end.

(** The events of the three phases of a run, the stop excluded. *)
Definition is_phase_event (ev : Event) : bool :=
  is_item_event ev || is_report ev.

Definition trace_of (r : option (World * list Event)) : list Event :=
  match r with
  | Some (_, evs) => evs
  | None => []
  end.

(** ** A concrete host and run, used to exercise the model *)

Definition img (id : string) : Image :=
  {| photoId := id; status := draft; uri := "file:///" ++ id;
     type := ""; fileName := id ++ ".jpg"; extras := [("album", "a1")] |}.

Definition ok_response : AxiosResponse :=
  {| resp_data := JObj [("success", JText "true")]; resp_status := Some 200%Z |}.

Definition server_error : AxiosError :=
  {| message := Some "Request failed with status code 500";
     response := Some {| resp_data := JText "boom"; resp_status := Some 500%Z |} |}.

Definition network_error : AxiosError :=
  {| message := Some "Network Error"; response := None |}.

Definition request_of (ims : list Image) : UploadRequest :=
  {| uploadOptions :=
       {| uo_axiosInstance := 9; uo_images := ims; uo_url := "https://other";
          uo_batchSize := Some 1; uo_maxRetries := Some 7;
          uo_imageCompression := Some false |};
     rq_onSuccess := Some 91; rq_onFailure := Some 92;
     rq_onBatchComplete := Some 93; rq_onServiceStart := None;
     rq_onServiceEnd := Some 95 |}.


Definition task_of (ims : list Image) (bs retries : nat) : TaskData :=
  {| images := ims; batchSize := bs; onSuccess := Some 1; onFailure := Some 2;
     url := "https://upload"; maxRetries := retries; imageCompression := true;
     axiosInstance := 0; onBatchComplete := Some 3; onServiceEnd := Some 4 |}.

Definition idle : World :=
  {| queuedImages := []; failedImages := []; isRunning := false;
     submitted := 0; suspended := 0 |}.

Definition running : World := set_running true idle.

(** [n] images named by consecutive letters. *)
Definition lettered (n : nat) : list Image :=
  map (fun k => img (String (Ascii.ascii_of_nat (65 + k)) "")) (seq 0 n).

(** The world a run leaves behind after [k] submissions and [n] waits. *)
Definition idle_after (k n : nat) : World :=
  {| queuedImages := []; failedImages := []; isRunning := false;
     submitted := k; suspended := n |}.

(** A host where everything works, one where nothing does, and one
    where other callers submit images while the task is suspended: one
    request during the first wait, one during the second. *)
Definition host_ok : Host :=
  {| compress := fun u _ => Some (u ++ "?q=80")%string;
     post := fun _ _ _ _ => inl ok_response;
     now := fun k => Z.of_nat (1000 + k);
     platformOS := "android";
     arrivals := fun _ => [];
     thrown_by_onSuccess := fun _ _ _ _ => None |}.

Definition host_down : Host :=
  {| compress := fun _ _ => None;
     post := fun _ _ _ _ => inr network_error;
     now := fun k => Z.of_nat (1000 + k);
     platformOS := "ios";
     arrivals := fun _ => [];
     thrown_by_onSuccess := fun _ _ _ _ => None |}.

Definition host_busy : Host :=
  {| compress := fun u _ => Some u;
     post := fun _ _ _ _ => inl ok_response;
     now := fun k => Z.of_nat (1000 + k);
     platformOS := "ios";
     arrivals := fun k =>
       match k with
       | 0 => [request_of [img "b"]]
       | 1 => [request_of [img "c"]]
       | _ => []
       end;
     thrown_by_onSuccess := fun _ _ _ _ => None |}.

(** A host whose transport accepts everything and whose success
    callback always throws. *)
Definition callback_error : AxiosError :=
  {| message := Some "onSuccess failed"; response := None |}.

Definition host_touchy : Host :=
  {| compress := fun u _ => Some u;
     post := fun _ _ _ _ => inl ok_response;
     now := fun k => Z.of_nat (1000 + k);
     platformOS := "ios";
     arrivals := fun _ => [];
     thrown_by_onSuccess := fun _ _ _ _ => Some callback_error |}.

(** An error whose response has a status and no body. *)
Definition bodiless_error : AxiosError :=
  {| message := Some "Request failed with status code 500";
     response := Some {| resp_data := JNull; resp_status := Some 500%Z |} |}.

(** ** The statements of the specification that the code does not meet,
    as predicates on a trace *)

(** "[{error: body, status: code}] when the error carries a structured
    remote response (status code plus response body), and the raw error
    unchanged otherwise". *)
Definition classified_as_specified (error : AxiosError)
    (result : ErrorResponse + AxiosError) : Prop :=
  match response error with
  | Some r =>
      match resp_status r, resp_data r with
      | None, _ | _, JNull => result = inr error
      | Some code, body =>
          result = inl {| er_error := body; er_status := code |}
      end
  | None => result = inr error
  end.

(** "Every item receives exactly one success or one failure callback." *)
Definition one_callback_each (evs : list Event) (items : list Image) : Prop :=
  forall x : Image,
    In x items ->
    times (photoId x) (succeeded evs) + times (photoId x) (rejected evs) = 1.

(** "The run-end signal is emitted exactly once." *)
Definition signalled_once (evs : list Event) : Prop :=
  List.length (service_ends evs) = 1.







(** ** Further readings of a trace and variants of a task *)

(** The sources handed to the compressor and the forms handed to the
    transport, in order. *)
Fixpoint compressed (evs : list Event) : list string :=
  match evs with
  | [] => []
  | EvCompress source :: rest => source :: compressed rest
  | _ :: rest => compressed rest
  end.

Fixpoint forms (evs : list Event) : list FormData :=
  match evs with
  | [] => []
  | EvPost _ _ _ form :: rest => form :: forms rest
  | _ :: rest => forms rest
  end.

(** The key/value parts of a form and its file parts. *)
Fixpoint text_parts (form : FormData) : list (string * string) :=
  match form with
  | [] => []
  | TextPart key value :: rest => (key, value) :: text_parts rest
  | FilePart _ _ _ _ :: rest => text_parts rest
  end.

Fixpoint file_parts (form : FormData) : list (string * string * string) :=
  match form with
  | [] => []
  | FilePart _ u ty nm :: rest => (u, ty, nm) :: file_parts rest
  | TextPart _ _ :: rest => file_parts rest
  end.

Definition is_compress (ev : Event) : bool :=
  match ev with
  | EvCompress _ => true
  | _ => false
  end.

(** The task [t] with the compression flag off. *)
Definition without_compression (t : TaskData) : TaskData :=
  {| images := images t; batchSize := batchSize t;
     onSuccess := onSuccess t; onFailure := onFailure t; url := url t;
     maxRetries := maxRetries t; imageCompression := false;
     axiosInstance := axiosInstance t;
     onBatchComplete := onBatchComplete t; onServiceEnd := onServiceEnd t |}.

(** A result with its trace filtered. *)
Definition keep_events (keep : Event -> bool)
    (r : option (World * list Event)) : option (World * list Event) :=
  match r with
  | Some (w, evs) => Some (w, filter keep evs)
  | None => None
  end.





(** The host [H] when no other caller submits anything. *)
Definition undisturbed (H : Host) : Host :=
  {| compress := compress H; post := post H; now := now H;
     platformOS := platformOS H; arrivals := fun _ => [];
     thrown_by_onSuccess := thrown_by_onSuccess H |}.

(** ** Facts about the helpers *)

Lemma slice_from {A : Type} (l : list A) (i b : nat) :
  slice l i (i + b) = firstn b (skipn i l).
Proof. unfold slice. f_equal. lia. Qed.

Lemma slice_length {A : Type} (l : list A) (i b : nat) :
  List.length (slice l i (i + b)) = Nat.min b (List.length l - i).
Proof. rewrite slice_from, length_firstn, length_skipn. reflexivity. Qed.

Lemma ceil_div_0 (b : nat) : 0 < b -> ceil_div 0 b = 0.
Proof.
  intros Hb. unfold ceil_div. apply Nat.div_small. lia.
Qed.

Lemma ceil_div_step (m b : nat) :
  0 < b -> 0 < m -> ceil_div m b = S (ceil_div (m - b) b).
Proof.
  intros Hb Hm. unfold ceil_div.
  destruct (le_lt_dec b m) as [Hle | Hlt].
  - replace (m + b - 1) with ((m - b + b - 1) + 1 * b) by lia.
    rewrite Nat.div_add by lia. lia.
  - replace (m - b) with 0 by lia.
    rewrite (Nat.div_small (0 + b - 1)) by lia.
    symmetry. apply (Nat.div_unique (m + b - 1) b 1 (m - 1)); lia.
Qed.

Lemma times_app (id : string) (l1 l2 : list string) :
  times id (l1 ++ l2) = times id l1 + times id l2.
Proof. unfold times. rewrite filter_app, length_app. reflexivity. Qed.

Lemma occ_app (id : string) (l1 l2 : list Image) :
  occ id (l1 ++ l2) = occ id l1 + occ id l2.
Proof. unfold occ. rewrite map_app. apply times_app. Qed.

Lemma occ_nil (id : string) : occ id [] = 0.
Proof. reflexivity. Qed.

Lemma occ_cons (id : string) (x : Image) (l : list Image) :
  occ id (x :: l) = (if String.eqb id (photoId x) then 1 else 0) + occ id l.
Proof.
  unfold occ, times. simpl. destruct (String.eqb id (photoId x)); reflexivity.
Qed.

Lemma posted_app (e1 e2 : list Event) :
  posted (e1 ++ e2) = posted e1 ++ posted e2.
Proof.
  induction e1 as [| ev e1 IH]; simpl; [reflexivity |].
  destruct ev; simpl; rewrite IH; reflexivity.
Qed.

Lemma succeeded_app (e1 e2 : list Event) :
  succeeded (e1 ++ e2) = succeeded e1 ++ succeeded e2.
Proof.
  induction e1 as [| ev e1 IH]; simpl; [reflexivity |].
  destruct ev; simpl; rewrite IH; reflexivity.
Qed.

Lemma rejected_app (e1 e2 : list Event) :
  rejected (e1 ++ e2) = rejected e1 ++ rejected e2.
Proof.
  induction e1 as [| ev e1 IH]; simpl; [reflexivity |].
  destruct ev; simpl; rewrite IH; reflexivity.
Qed.

Lemma reports_app (e1 e2 : list Event) :
  reports (e1 ++ e2) = reports e1 ++ reports e2.
Proof.
  induction e1 as [| ev e1 IH]; simpl; [reflexivity |].
  destruct ev; simpl; rewrite IH; reflexivity.
Qed.

Lemma service_ends_app (e1 e2 : list Event) :
  service_ends (e1 ++ e2) = service_ends e1 ++ service_ends e2.
Proof.
  induction e1 as [| ev e1 IH]; simpl; [reflexivity |].
  destruct ev; simpl; rewrite IH; reflexivity.
Qed.

(** Events that are not reports only extend the batch being collected. *)
Lemma batches_seen_items (e1 e2 : list Event) (cur : list Image) :
  forallb not_report e1 = true ->
  batches_seen (e1 ++ e2) cur = batches_seen e2 (cur ++ posted e1).
Proof.
  revert cur. induction e1 as [| ev e1 IH]; intros cur Hnr; simpl.
  - rewrite app_nil_r. reflexivity.
  - simpl in Hnr. apply andb_prop in Hnr. destruct Hnr as [Hev Hnr].
    destruct ev; simpl in Hev; try discriminate;
      rewrite (IH _ Hnr); try reflexivity.
    rewrite <- app_assoc. reflexivity.
Qed.

(** ** Facts about one batch *)

(** The cases of one upload promise: the transport's answer and, when
    it accepts, whether the success callback is there and throws. *)
Ltac promise_shapes H t :=
  unfold promise_events, thrown, uploadImage, compressImage;
  destruct (imageCompression t) eqn:?Hc; cbn [fst snd];
  match goal with
  | |- context [post H ?a ?b ?c ?d] =>
      destruct (post H a b c d) as [?resp | ?err]
  end;
  try match goal with
      | |- context [onSuccess t] => destruct (onSuccess t) as [?f |] eqn:?Hs
      end;
  try match goal with
      | |- context [thrown_by_onSuccess H ?g ?d ?i ?n] =>
          destruct (thrown_by_onSuccess H g d i n) as [?ex |]
      end;
  try match goal with
      | |- context [onFailure t] => destruct (onFailure t) as [?g |] eqn:?Hf
      end;
  cbn [call app].

Ltac promise_cases H t x k :=
  unfold thrown;
  destruct (uploadImage H x (url t) (imageCompression t) (axiosInstance t) k)
    as [?evs [?resp | ?err]];
  cbn [fst snd];
  [ destruct (onSuccess t) as [?f |];
    [ match goal with
      | |- context [thrown_by_onSuccess H ?g ?d ?i ?n] =>
          destruct (thrown_by_onSuccess H g d i n) as [?ex |]
      end
    | ]
  | ].

Section BatchFacts.

Variable H : Host.

Lemma posted_uploadImage (x : Image) (target : string) (c : bool)
    (inst : AxiosInstance) (k : nat) :
  posted (fst (uploadImage H x target c inst k)) = [x].
Proof.
  unfold uploadImage, compressImage. destruct c; reflexivity.
Qed.

Lemma uploadImage_no_callbacks (x : Image) (target : string) (c : bool)
    (inst : AxiosInstance) (k : nat) :
  let evs := fst (uploadImage H x target c inst k) in
  succeeded evs = [] /\ rejected evs = [] /\ reports evs = [] /\
  service_ends evs = [] /\
  forallb not_report evs = true.
Proof.
  unfold uploadImage, compressImage. destruct c; simpl; repeat split.
Qed.

(** The world after one promise: only the failed images and the
    submission counter move. *)
Lemma uploadPromise_world (ph : Phase) (t : TaskData) (m : nat) (x : Image)
    (w : World) :
  let w1 := fst (fst (uploadPromise H ph t m x w)) in
  queuedImages w1 = queuedImages w /\
  failedImages w1 =
    failedImages w ++ (if rejects H t x (submitted w) then [x] else []) /\
  isRunning w1 = isRunning w /\
  submitted w1 = S (submitted w) /\
  suspended w1 = suspended w.
Proof.
  unfold uploadPromise, rejects, caught.
  promise_cases H t x (submitted w); simpl; rewrite ?app_nil_r; repeat split.
Qed.

Lemma uploadPromise_events (ph : Phase) (t : TaskData) (m : nat) (x : Image)
    (w : World) :
  snd (fst (uploadPromise H ph t m x w)) = promise_events H t x (submitted w).
Proof.
  unfold uploadPromise, promise_events, caught.
  promise_cases H t x (submitted w); cbn [fst snd call];
    rewrite <- ?app_assoc, ?app_nil_r; reflexivity.
Qed.

Lemma uploadPromises_world (ph : Phase) (t : TaskData) (m : nat)
    (xs : list Image) :
  forall w : World,
    let w1 := fst (fst (uploadPromises H ph t m xs w)) in
    queuedImages w1 = queuedImages w /\
    failedImages w1 = failedImages w ++ rejected_of H t xs (submitted w) /\
    isRunning w1 = isRunning w /\
    submitted w1 = submitted w + List.length xs /\
    suspended w1 = suspended w.
Proof.
  induction xs as [| x xs IH]; intros w; simpl.
  - rewrite app_nil_r, Nat.add_0_r. repeat split.
  - pose proof (uploadPromise_world ph t m x w) as Hx.
    destruct (uploadPromise H ph t m x w) as [[w1 e1] s1]. simpl in Hx.
    specialize (IH w1).
    destruct (uploadPromises H ph t m xs w1) as [[w2 e2] ss]. simpl in IH |- *.
    destruct Hx as (Hq & Hf & Hr & Hs & Hp).
    destruct IH as (Hq' & Hf' & Hr' & Hs' & Hp').
    rewrite Hq', Hf', Hr', Hs', Hp', Hq, Hf, Hr, Hs, Hp.
    rewrite <- app_assoc. repeat split. lia.
Qed.

Lemma uploadPromises_events (ph : Phase) (t : TaskData) (m : nat)
    (xs : list Image) :
  forall w : World,
    snd (fst (uploadPromises H ph t m xs w)) = item_events H t xs (submitted w).
Proof.
  induction xs as [| x xs IH]; intros w; simpl; [reflexivity |].
  pose proof (uploadPromise_events ph t m x w) as Hx.
  pose proof (uploadPromise_world ph t m x w) as Hw.
  destruct (uploadPromise H ph t m x w) as [[w1 e1] s1]. simpl in Hx, Hw.
  specialize (IH w1).
  destruct (uploadPromises H ph t m xs w1) as [[w2 e2] ss]. simpl in IH |- *.
  destruct Hw as (_ & _ & _ & Hs & _).
  rewrite Hx, IH, Hs. reflexivity.
Qed.

Lemma uploadPromises_length (ph : Phase) (t : TaskData) (m : nat)
    (xs : list Image) :
  forall w : World,
    List.length (snd (uploadPromises H ph t m xs w)) = List.length xs.
Proof.
  induction xs as [| x xs IH]; intros w; simpl; [reflexivity |].
  destruct (uploadPromise H ph t m x w) as [[w1 e1] s1].
  specialize (IH w1).
  destruct (uploadPromises H ph t m xs w1) as [[w2 e2] ss]. simpl in IH |- *.
  rewrite IH. reflexivity.
Qed.

Lemma rejected_of_app (t : TaskData) (xs ys : list Image) :
  forall k : nat,
    rejected_of H t (xs ++ ys) k =
    rejected_of H t xs k ++ rejected_of H t ys (k + List.length xs).
Proof.
  induction xs as [| x xs IH]; intros k; simpl.
  - rewrite Nat.add_0_r. reflexivity.
  - rewrite IH, <- app_assoc.
    replace (k + S (List.length xs)) with (S k + List.length xs) by lia.
    reflexivity.
Qed.

Lemma item_events_app (t : TaskData) (xs ys : list Image) :
  forall k : nat,
    item_events H t (xs ++ ys) k =
    item_events H t xs k ++ item_events H t ys (k + List.length xs).
Proof.
  induction xs as [| x xs IH]; intros k; simpl.
  - rewrite Nat.add_0_r. reflexivity.
  - rewrite IH, <- app_assoc.
    replace (k + S (List.length xs)) with (S k + List.length xs) by lia.
    reflexivity.
Qed.

Lemma posted_promise_events (t : TaskData) (x : Image) (k : nat) :
  posted (promise_events H t x k) = [x].
Proof.
  unfold promise_events.
  pose proof (posted_uploadImage x (url t) (imageCompression t)
                                 (axiosInstance t) k) as Hp.
  promise_cases H t x k; simpl in Hp; rewrite !posted_app, Hp;
    destruct (onFailure t); reflexivity.
Qed.

Lemma posted_item_events (t : TaskData) (xs : list Image) :
  forall k : nat, posted (item_events H t xs k) = xs.
Proof.
  induction xs as [| x xs IH]; intros k; simpl; [reflexivity |].
  rewrite posted_app, posted_promise_events, IH. reflexivity.
Qed.

Lemma promise_events_no_report (t : TaskData) (x : Image) (k : nat) :
  forallb not_report (promise_events H t x k) = true.
Proof.
  unfold promise_events.
  pose proof (uploadImage_no_callbacks x (url t) (imageCompression t)
                                       (axiosInstance t) k) as Hn.
  promise_cases H t x k; simpl in Hn;
    destruct Hn as (_ & _ & _ & _ & Hn); rewrite forallb_app, Hn;
    destruct (onFailure t); reflexivity.
Qed.

Lemma item_events_no_report (t : TaskData) (xs : list Image) :
  forall k : nat,
    forallb not_report (item_events H t xs k) = true.
Proof.
  induction xs as [| x xs IH]; intros k; simpl; [reflexivity |].
  rewrite forallb_app, promise_events_no_report, IH. reflexivity.
Qed.

Lemma reports_item_events (t : TaskData) (xs : list Image) (k : nat) :
  reports (item_events H t xs k) = [].
Proof.
  pose proof (item_events_no_report t xs k) as Hn.
  induction (item_events H t xs k) as [| ev evs IH]; [reflexivity |].
  simpl in Hn. apply andb_prop in Hn. destruct Hn as [Hev Hn].
  destruct ev; simpl in *; try discriminate; auto.
Qed.

(** While the service runs, a request only grows the queue. *)
Lemma serve_requests_running (rqs : list UploadRequest) :
  forall w : World,
    isRunning w = true ->
    serve_requests H rqs w =
    set_queued (queuedImages w
                ++ flat_map (fun rq => uo_images (uploadOptions rq)) rqs) w.
Proof.
  induction rqs as [| rq rqs IH]; intros w Hrun; simpl.
  - rewrite app_nil_r. destruct w; reflexivity.
  - unfold startBackgroundUpload at 1. rewrite Hrun. simpl.
    rewrite IH by exact Hrun. unfold set_queued. simpl.
    rewrite <- app_assoc. reflexivity.
Qed.

Lemma awaitAllSettled_running (w : World) :
  isRunning w = true ->
  let w1 := awaitAllSettled H w in
  queuedImages w1 = queuedImages w ++ arrived H (suspended w) 1 /\
  failedImages w1 = failedImages w /\
  isRunning w1 = true /\
  submitted w1 = submitted w /\
  suspended w1 = S (suspended w).
Proof.
  intros Hrun. unfold awaitAllSettled.
  rewrite serve_requests_running by exact Hrun. simpl.
  rewrite app_nil_r. repeat split. exact Hrun.
Qed.

Lemma arrived_plus (from n m : nat) :
  arrived H from (n + m) = arrived H from n ++ arrived H (from + n) m.
Proof.
  revert from. induction n as [| n IH]; intros from; simpl.
  - rewrite Nat.add_0_r. reflexivity.
  - rewrite IH, <- app_assoc.
    replace (from + S n) with (S from + n) by lia.
    reflexivity.
Qed.

End BatchFacts.

(** ** Facts about the batch loop *)

Section LoopFacts.

Variable H : Host.

(** More fuel does not change a result. *)
Lemma batchLoop_fuel (ph : Phase) (t : TaskData) (xs : list Image) :
  forall (fuel fuel' i : nat) (w : World) (r : World * list Event),
    batchLoop H fuel ph t xs i w = Some r ->
    fuel <= fuel' ->
    batchLoop H fuel' ph t xs i w = Some r.
Proof.
  induction fuel as [| fuel IH]; intros fuel' i w r Hrun Hle;
    [discriminate |].
  destruct fuel' as [| fuel']; [lia |].
  simpl in Hrun |- *.
  destruct (i <? List.length xs); [| exact Hrun].
  destruct (uploadPromises H ph t (submitted w)
                (slice xs i (i + batchSize t)) w)
    as [[w1 e1] result].
  destruct (batchLoop H fuel ph t xs (i + batchSize t) (awaitAllSettled H w1))
    as [[w3 e3] |] eqn:Hrest; [| discriminate].
  rewrite (IH fuel' _ _ _ Hrest) by lia. exact Hrun.
Qed.

(** With a positive batch size the loop ends, and an observer sees the
    batches [xs.slice(i, i + batchSize)], [xs.slice(i + batchSize, ...)],
    ... each closed by a report that carries one settlement per image and
    the batch number [floor(offset / batchSize) + 1]. *)
Lemma batchLoop_batches (ph : Phase) (t : TaskData) (xs : list Image)
    (cb : Callback) :
  0 < batchSize t ->
  onBatchComplete t = Some cb ->
  forall (fuel i : nat) (w : World),
    List.length xs - i < fuel ->
    exists (w' : World) (evs : list Event),
      batchLoop H fuel ph t xs i w = Some (w', evs) /\
      List.length (batches_seen evs []) =
        ceil_div (List.length xs - i) (batchSize t) /\
      concat (map snd (batches_seen evs [])) = skipn i xs /\
      map (fun r => (fst r, List.length (snd r))) (reports evs) =
        map (fun b => (fst b, List.length (snd b))) (batches_seen evs []) /\
      forall k : nat,
        k < ceil_div (List.length xs - i) (batchSize t) ->
        nth_error (batches_seen evs []) k =
        Some ((i + k * batchSize t) / batchSize t + 1,
              slice xs (i + k * batchSize t)
                       (i + k * batchSize t + batchSize t)).
Proof.
  intros Hbs Hcb.
  induction fuel as [| fuel IH]; intros i w Hfuel; [lia |].
  simpl. destruct (Nat.ltb_spec i (List.length xs)) as [Hlt | Hge].
  - pose proof (uploadPromises_events H ph t (submitted w)
                  (slice xs i (i + batchSize t)) w)
      as Hev.
    pose proof (uploadPromises_length H ph t (submitted w)
                  (slice xs i (i + batchSize t)) w)
      as Hlen.
    destruct (uploadPromises H ph t (submitted w)
                (slice xs i (i + batchSize t)) w)
      as [[w1 e1] result]. simpl in Hev, Hlen.
    destruct (IH (i + batchSize t) (awaitAllSettled H w1)) as
      (w3 & e3 & Hrun & Hn & Hcat & Hrep & Hnth); [lia |].
    rewrite Hrun. exists w3, (e1 ++ call (onBatchComplete t)
      (fun f => EvBatchComplete f result (i / batchSize t + 1)) ++ e3).
    split; [reflexivity |].
    rewrite Hcb. simpl.
    assert (Hseen :
      batches_seen (e1 ++ EvBatchComplete cb result (i / batchSize t + 1) :: e3)
                   [] =
      (i / batchSize t + 1, slice xs i (i + batchSize t))
        :: batches_seen e3 []).
    { rewrite batches_seen_items
        by (rewrite Hev; apply item_events_no_report).
      simpl. rewrite Hev, posted_item_events. reflexivity. }
    rewrite Hseen.
    rewrite (ceil_div_step (List.length xs - i)) by lia.
    replace (List.length xs - i - batchSize t)
      with (List.length xs - (i + batchSize t)) by lia.
    repeat split.
    + simpl. rewrite Hn. reflexivity.
    + simpl. rewrite Hcat, slice_from.
      replace (i + batchSize t) with (batchSize t + i) by lia.
      rewrite <- skipn_skipn. apply firstn_skipn.
    + rewrite reports_app, Hev, reports_item_events. simpl.
      rewrite Hrep, Hlen. reflexivity.
    + intros [| k] Hk; simpl.
      * rewrite Nat.add_0_r. reflexivity.
      * rewrite Hnth by lia.
        replace (i + batchSize t + k * batchSize t)
          with (i + (batchSize t + k * batchSize t)) by lia.
        reflexivity.
  - exists w, []. replace (List.length xs - i) with 0 by lia.
    rewrite ceil_div_0 by exact Hbs.
    rewrite skipn_all2 by lia. simpl. repeat split. intros k Hk. lia.
Qed.

(** With a positive batch size and the service running, the loop ends
    in a world that is known field by field, and apart from the reports
    its trace is the trace of the submissions one after the other. *)
Lemma batchLoop_runs (ph : Phase) (t : TaskData) (xs : list Image) :
  0 < batchSize t ->
  forall (fuel i : nat) (w : World),
    isRunning w = true ->
    List.length xs - i < fuel ->
    exists (w' : World) (evs : list Event),
      batchLoop H fuel ph t xs i w = Some (w', evs) /\
      queuedImages w' =
        queuedImages w
        ++ arrived H (suspended w)
                   (ceil_div (List.length xs - i) (batchSize t)) /\
      failedImages w' =
        failedImages w ++ rejected_of H t (skipn i xs) (submitted w) /\
      isRunning w' = true /\
      submitted w' = submitted w + (List.length xs - i) /\
      suspended w' =
        suspended w + ceil_div (List.length xs - i) (batchSize t) /\
      filter not_report evs =
        item_events H t (skipn i xs) (submitted w).
Proof.
  intros Hbs.
  induction fuel as [| fuel IH]; intros i w Hrunning Hfuel; [lia |].
  simpl. destruct (Nat.ltb_spec i (List.length xs)) as [Hlt | Hge].
  - pose proof (uploadPromises_events H ph t (submitted w)
                  (slice xs i (i + batchSize t)) w)
      as Hev.
    pose proof (uploadPromises_world H ph t (submitted w)
                  (slice xs i (i + batchSize t)) w)
      as Hw.
    destruct (uploadPromises H ph t (submitted w)
                (slice xs i (i + batchSize t)) w)
      as [[w1 e1] result]. simpl in Hev, Hw.
    destruct Hw as (Hq1 & Hf1 & Hr1 & Hs1 & Hp1).
    assert (Hrun1 : isRunning w1 = true) by congruence.
    pose proof (awaitAllSettled_running H w1 Hrun1) as Hw2. cbv zeta in Hw2.
    destruct Hw2 as (Hq2 & Hf2 & Hr2 & Hs2 & Hp2).
    destruct (IH (i + batchSize t) (awaitAllSettled H w1) Hr2) as
      (w3 & e3 & Hrun & Hq3 & Hf3 & Hr3 & Hs3 & Hp3 & Hitems); [lia |].
    rewrite Hrun. exists w3, (e1 ++ call (onBatchComplete t)
      (fun f => EvBatchComplete f result (i / batchSize t + 1)) ++ e3).
    split; [reflexivity |].
    rewrite (ceil_div_step (List.length xs - i)) by lia.
    replace (List.length xs - i - batchSize t)
      with (List.length xs - (i + batchSize t)) by lia.
    assert (Hsplit : skipn i xs =
                     slice xs i (i + batchSize t) ++ skipn (i + batchSize t) xs).
    { rewrite slice_from.
      replace (i + batchSize t) with (batchSize t + i) by lia.
      rewrite <- skipn_skipn. symmetry. apply firstn_skipn. }
    assert (Hsl : List.length (slice xs i (i + batchSize t)) =
                  Nat.min (batchSize t) (List.length xs - i))
      by apply slice_length.
    repeat split.
    + rewrite Hq3, Hq2, Hq1, Hp2, Hp1.
      change (S (ceil_div (List.length xs - (i + batchSize t)) (batchSize t)))
        with (1 + ceil_div (List.length xs - (i + batchSize t)) (batchSize t)).
      rewrite arrived_plus, <- app_assoc.
      replace (suspended w + 1) with (S (suspended w)) by lia. reflexivity.
    + rewrite Hf3, Hf2, Hf1, Hs2, Hs1, Hsplit at 1.
      rewrite rejected_of_app, <- app_assoc. reflexivity.
    + exact Hr3.
    + rewrite Hs3, Hs2, Hs1, Hsl. lia.
    + rewrite Hp3, Hp2, Hp1. lia.
    + rewrite !filter_app, Hitems, Hs2, Hs1.
      rewrite Hsplit, item_events_app, Hev.
      rewrite (forallb_filter_id _ _ (item_events_no_report H t _ _)).
      destruct (onBatchComplete t); reflexivity.
  - exists w, []. replace (List.length xs - i) with 0 by lia.
    rewrite ceil_div_0 by exact Hbs.
    rewrite skipn_all2 by lia. simpl.
    rewrite !app_nil_r, !Nat.add_0_r. repeat split. exact Hrunning.
Qed.

End LoopFacts.

(** ** Reading the trace of a sequence of submissions *)

Lemma posted_not_report (evs : list Event) :
  posted (filter not_report evs) = posted evs.
Proof.
  induction evs as [| ev evs IH]; simpl; [reflexivity |].
  destruct ev; simpl; rewrite ?IH; reflexivity.
Qed.

Lemma succeeded_not_report (evs : list Event) :
  succeeded (filter not_report evs) = succeeded evs.
Proof.
  induction evs as [| ev evs IH]; simpl; [reflexivity |].
  destruct ev; simpl; rewrite ?IH; reflexivity.
Qed.

Lemma rejected_not_report (evs : list Event) :
  rejected (filter not_report evs) = rejected evs.
Proof.
  induction evs as [| ev evs IH]; simpl; [reflexivity |].
  destruct ev; simpl; rewrite ?IH; reflexivity.
Qed.

Section ItemFacts.

Variable H : Host.
Variable t : TaskData.

(** One submission calls exactly one of the two callbacks, when both
    are supplied and the success callback does not throw: [onFailure]
    if it is rejected, [onSuccess] if not. *)
Lemma promise_events_callbacks (x : Image) (k : nat) (cs cf : Callback) :
  onSuccess t = Some cs ->
  onFailure t = Some cf ->
  (forall (d : Json) (i : string) (n : nat),
      thrown_by_onSuccess H cs d i n = None) ->
  succeeded (promise_events H t x k) =
    (if rejects H t x k then [] else [photoId x]) /\
  rejected (promise_events H t x k) =
    (if rejects H t x k then [photoId x] else []).
Proof.
  intros Hs Hf Hquiet. unfold promise_events, rejects, thrown.
  pose proof (uploadImage_no_callbacks H x (url t) (imageCompression t)
                                       (axiosInstance t) k) as Hn.
  destruct (uploadImage H x (url t) (imageCompression t) (axiosInstance t) k)
    as [evs [resp | err]]; simpl in Hn |- *;
    destruct Hn as (Hn1 & Hn2 & _);
    rewrite ?Hs, ?Hquiet, ?Hf, !succeeded_app, !rejected_app, Hn1, Hn2;
    split; reflexivity.
Qed.

Lemma rejected_of_occ (id : string) (xs : list Image) :
  forall k : nat, occ id (rejected_of H t xs k) <= occ id xs.
Proof.
  induction xs as [| x xs IH]; intros k; simpl; [lia |].
  specialize (IH (S k)).
  destruct (rejects H t x k); simpl; rewrite !occ_cons; lia.
Qed.

Lemma rejected_of_length (xs : list Image) :
  forall k : nat, List.length (rejected_of H t xs k) <= List.length xs.
Proof.
  induction xs as [| x xs IH]; intros k; simpl; [lia |].
  rewrite length_app. specialize (IH (S k)).
  destruct (rejects H t x k); simpl; lia.
Qed.

(** An image whose promise is always rejected stays in the failure set. *)
Lemma rejected_of_always (id : string) (xs : list Image) :
  (forall (x : Image) (k : nat), photoId x = id -> rejects H t x k = true) ->
  forall k : nat, occ id (rejected_of H t xs k) = occ id xs.
Proof.
  intros Halways. induction xs as [| x xs IH]; intros k; simpl; [reflexivity |].
  specialize (IH (S k)).
  destruct (String.eqb_spec id (photoId x)) as [Heq | Hne].
  - rewrite (Halways x k (eq_sym Heq)). simpl. rewrite !occ_cons, IH.
    reflexivity.
  - apply String.eqb_neq in Hne.
    destruct (rejects H t x k); simpl; rewrite !occ_cons, ?Hne, IH; reflexivity.
Qed.

Lemma item_events_callbacks (id : string) (xs : list Image)
    (cs cf : Callback) :
  onSuccess t = Some cs ->
  onFailure t = Some cf ->
  (forall (d : Json) (i : string) (n : nat),
      thrown_by_onSuccess H cs d i n = None) ->
  forall k : nat,
    times id (succeeded (item_events H t xs k))
      + occ id (rejected_of H t xs k) = occ id xs /\
    times id (rejected (item_events H t xs k)) =
      occ id (rejected_of H t xs k).
Proof.
  intros Hs Hf Hquiet. induction xs as [| x xs IH]; intros k; simpl.
  - split; reflexivity.
  - destruct (promise_events_callbacks x k cs cf Hs Hf Hquiet) as [Hsx Hfx].
    destruct (IH (S k)) as [IHs IHf].
    rewrite succeeded_app, rejected_app, !times_app, Hsx, Hfx, IHf.
    destruct (rejects H t x k); simpl; rewrite !occ_cons; unfold times; simpl;
      fold (times id (succeeded (item_events H t xs (S k))));
      destruct (String.eqb id (photoId x)); simpl; split; lia.
Qed.

Lemma promise_events_rejected (x : Image) (k : nat) (cf : Callback) :
  onFailure t = Some cf ->
  rejected (promise_events H t x k) =
    if rejects H t x k then [photoId x] else [].
Proof.
  intros Hf. unfold promise_events, rejects.
  pose proof (uploadImage_no_callbacks H x (url t) (imageCompression t)
                                       (axiosInstance t) k) as Hn.
  promise_cases H t x k; simpl in Hn |- *;
    destruct Hn as (_ & Hn & _); rewrite !rejected_app, Hn, ?Hf; reflexivity.
Qed.

Lemma promise_events_succeeded (x : Image) (k : nat) (cs : Callback) :
  onSuccess t = Some cs ->
  succeeded (promise_events H t x k) =
    if accepted H t x k then [photoId x] else [].
Proof.
  intros Hs. unfold promise_events, accepted.
  pose proof (uploadImage_no_callbacks H x (url t) (imageCompression t)
                                       (axiosInstance t) k) as Hn.
  destruct (uploadImage H x (url t) (imageCompression t) (axiosInstance t) k)
    as [evs [resp | err]]; simpl in Hn |- *;
    destruct Hn as (Hn & _); rewrite !succeeded_app, Hn, ?Hs.
  - destruct (thrown H t resp x k); [destruct (onFailure t) |]; reflexivity.
  - destruct (onFailure t); reflexivity.
Qed.

Lemma promise_events_accepted (x : Image) (k : nat) :
  rejects H t x k = false ->
  rejected (promise_events H t x k) = [].
Proof.
  unfold promise_events, rejects.
  pose proof (uploadImage_no_callbacks H x (url t) (imageCompression t)
                                       (axiosInstance t) k) as Hn.
  destruct (uploadImage H x (url t) (imageCompression t) (axiosInstance t) k)
    as [evs [resp | err]]; simpl in Hn |- *; [| discriminate].
  destruct (thrown H t resp x k); [discriminate |].
  intros _. destruct Hn as (_ & Hn & _). rewrite !rejected_app, Hn.
  destruct (onSuccess t); reflexivity.
Qed.

(** A promise that is not rejected was accepted by the transport. *)
Lemma accepted_unless_rejected (x : Image) (k : nat) :
  rejects H t x k = false -> accepted H t x k = true.
Proof.
  unfold rejects, accepted.
  destruct (snd (uploadImage H x (url t) (imageCompression t)
                             (axiosInstance t) k)); [reflexivity |].
  discriminate.
Qed.

(** The failure callbacks of a sequence of submissions name the images
    whose promise is rejected, the success callbacks those the transport
    accepts, in order. *)
Lemma rejected_item_events (xs : list Image) (cf : Callback) :
  onFailure t = Some cf ->
  forall k : nat,
    rejected (item_events H t xs k) = map photoId (rejected_of H t xs k).
Proof.
  intros Hf. induction xs as [| x xs IH]; intros k; simpl; [reflexivity |].
  rewrite rejected_app, (promise_events_rejected x k cf Hf), IH, map_app.
  destruct (rejects H t x k); reflexivity.
Qed.

Lemma succeeded_item_events (xs : list Image) (cs : Callback) :
  onSuccess t = Some cs ->
  forall k : nat,
    succeeded (item_events H t xs k) = map photoId (accepted_of H t xs k).
Proof.
  intros Hs. induction xs as [| x xs IH]; intros k; simpl; [reflexivity |].
  rewrite succeeded_app, (promise_events_succeeded x k cs Hs), IH, map_app.
  destruct (accepted H t x k); reflexivity.
Qed.

Lemma accepted_of_occ (id : string) (xs : list Image) :
  forall k : nat, occ id (accepted_of H t xs k) <= occ id xs.
Proof.
  induction xs as [| x xs IH]; intros k; simpl; [lia |].
  specialize (IH (S k)).
  destruct (accepted H t x k); simpl; rewrite !occ_cons; lia.
Qed.



Lemma rejects_when_quiet (x : Image) (k : nat) (cs : Callback) :
  onSuccess t = Some cs ->
  (forall d : Json, thrown_by_onSuccess H cs d (photoId x) k = None) ->
  accepted H t x k = true ->
  rejects H t x k = false.
Proof.
  intros Hs Hquiet. unfold rejects, accepted, thrown. rewrite Hs.
  destruct (snd (uploadImage H x (url t) (imageCompression t)
                             (axiosInstance t) k)) as [resp | err];
    [rewrite Hquiet; reflexivity | discriminate].
Qed.

Lemma rejected_of_incl (xs : list Image) :
  forall k : nat, incl (rejected_of H t xs k) xs.
Proof.
  induction xs as [| x xs IH]; intros k; simpl; [apply incl_refl |].
  destruct (rejects H t x k); simpl.
  - apply incl_cons; [left; reflexivity |].
    apply incl_tl. apply IH.
  - apply incl_tl. apply IH.
Qed.

Lemma rejected_of_none (xs : list Image) :
  (forall (x : Image) (k : nat), rejects H t x k = false) ->
  forall k : nat, rejected_of H t xs k = [].
Proof.
  intros Hok. induction xs as [| x xs IH]; intros k; simpl; [reflexivity |].
  rewrite Hok, IH. reflexivity.
Qed.

Lemma item_events_when_accepted (xs : list Image) (cs : Callback) :
  onSuccess t = Some cs ->
  (forall (x : Image) (k : nat), rejects H t x k = false) ->
  forall k : nat,
    succeeded (item_events H t xs k) = map photoId xs /\
    rejected (item_events H t xs k) = [].
Proof.
  intros Hs Hok. induction xs as [| x xs IH]; intros k; simpl.
  - split; reflexivity.
  - destruct (IH (S k)) as [IHs IHr].
    rewrite succeeded_app, rejected_app, IHs, IHr.
    rewrite (promise_events_succeeded x k cs Hs).
    rewrite (accepted_unless_rejected x k (Hok x k)).
    rewrite (promise_events_accepted x k (Hok x k)). split; reflexivity.
Qed.

End ItemFacts.

(** ** Facts about the phases of a run *)

Section RunFacts.

Variable H : Host.
Variable t : TaskData.
Hypothesis positive_batch : 0 < batchSize t.

(** Whatever fuel made the loop end, its result is the one described by
    [batchLoop_runs]. *)
Lemma batchLoop_result (ph : Phase) (xs : list Image) (fuel i : nat)
    (w w' : World) (evs : list Event) :
  isRunning w = true ->
  batchLoop H fuel ph t xs i w = Some (w', evs) ->
  queuedImages w' =
    queuedImages w
    ++ arrived H (suspended w) (ceil_div (List.length xs - i) (batchSize t)) /\
  failedImages w' =
    failedImages w ++ rejected_of H t (skipn i xs) (submitted w) /\
  isRunning w' = true /\
  submitted w' = submitted w + (List.length xs - i) /\
  suspended w' =
    suspended w + ceil_div (List.length xs - i) (batchSize t) /\
  filter not_report evs = item_events H t (skipn i xs) (submitted w).
Proof.
  intros Hrunning Hrun.
  destruct (batchLoop_runs H ph t xs positive_batch
              (Nat.max fuel (S (List.length xs - i))) i w
              Hrunning) as (w1 & e1 & Hrun1 & Hfacts); [lia |].
  rewrite (batchLoop_fuel H ph t xs _ _ _ _ _ Hrun (Nat.le_max_l _ _))
    in Hrun1.
  injection Hrun1 as <- <-. exact Hfacts.
Qed.

Lemma batchLoop_from_start (ph : Phase) (xs : list Image) (fuel : nat)
    (w w' : World) (evs : list Event) :
  isRunning w = true ->
  batchLoop H fuel ph t xs 0 w = Some (w', evs) ->
  queuedImages w' =
    queuedImages w
    ++ arrived H (suspended w) (ceil_div (List.length xs) (batchSize t)) /\
  failedImages w' = failedImages w ++ rejected_of H t xs (submitted w) /\
  isRunning w' = true /\
  submitted w' = submitted w + List.length xs /\
  suspended w' = suspended w + ceil_div (List.length xs) (batchSize t) /\
  filter not_report evs = item_events H t xs (submitted w).
Proof.
  intros Hrunning Hrun.
  apply batchLoop_result in Hrun; [| exact Hrunning].
  rewrite Nat.sub_0_r in Hrun. exact Hrun.
Qed.

Lemma drainQueue_result (fuel : nat) (w w' : World) (evs : list Event) :
  isRunning w = true ->
  drainQueue H fuel t w = Some (w', evs) ->
  failedImages w' =
    failedImages w ++ rejected_of H t (queuedImages w) (submitted w) /\
  isRunning w' = true /\
  submitted w' = submitted w + List.length (queuedImages w) /\
  queuedImages w' =
    arrived H (suspended w)
            (ceil_div (List.length (queuedImages w)) (batchSize t)) /\
  filter not_report evs = item_events H t (queuedImages w) (submitted w).
Proof.
  intros Hrunning. unfold drainQueue.
  destruct (queuedImages w) as [| q qs] eqn:Hq; simpl Nat.ltb; cbv iota.
  - intros Hdone. injection Hdone as <- <-. simpl.
    rewrite app_nil_r, Nat.add_0_r, Hq, ceil_div_0 by exact positive_batch.
    repeat split. exact Hrunning.
  - intros Hrun.
    apply batchLoop_from_start in Hrun; [| exact Hrunning].
    destruct Hrun as (Hq' & Hf' & Hr' & Hs' & _ & Hitems).
    repeat split; assumption.
Qed.

(** The retry loop follows the plan: its submissions are those of the
    snapshots, round after round, and it leaves the plan's last failure
    set. *)
Lemma retryLoop_plan :
  forall (fuel rc : nat) (w w' : World) (evs : list Event) (n : nat),
    isRunning w = true ->
    retryLoop H fuel t rc w = Some (w', evs, n) ->
    let plan := retry_plan H t (maxRetries t - rc) (failedImages w)
                           (submitted w) in
    filter not_report evs =
      plan_events H t (fst plan) /\
    failedImages w' = snd plan /\
    isRunning w' = true /\
    n = rc + List.length (fst plan).
Proof.
  induction fuel as [| fuel IH]; intros rc w w' evs n Hrunning Hrun;
    [discriminate |].
  simpl in Hrun.
  destruct (Nat.ltb_spec 0 (List.length (failedImages w))) as [Hne | He];
    destruct (Nat.ltb_spec rc (maxRetries t)) as [Hlt | Hge];
    simpl in Hrun.
  - destruct (batchLoop H fuel (Retry rc) t (failedImages w) 0
                        (set_failed [] w)) as [[w2 e2] |] eqn:Hround;
      [| discriminate].
    destruct (retryLoop H fuel t (S rc) w2) as [[[w3 e3] n3] |] eqn:Hrest;
      [| discriminate].
    injection Hrun as <- <- <-.
    apply batchLoop_from_start in Hround; [| exact Hrunning].
    destruct Hround as (_ & Hf2 & Hr2 & Hs2 & _ & Hitems2).
    cbn [set_failed failedImages submitted app] in Hf2, Hs2, Hitems2.
    specialize (IH _ _ _ _ _ Hr2 Hrest). cbv zeta in IH.
    rewrite Hf2, Hs2 in IH.
    replace (maxRetries t - rc) with (S (maxRetries t - S rc)) by lia.
    destruct (failedImages w) as [| f F] eqn:HF; [simpl in Hne; lia |].
    cbn [retry_plan].
    destruct (retry_plan H t (maxRetries t - S rc)
                (rejected_of H t (f :: F) (submitted w))
                (submitted w + List.length (f :: F))) as [snaps final].
    simpl in IH. destruct IH as (IHe & IHf & IHr & IHn).
    cbn [fst snd flat_map List.length].
    rewrite filter_app, Hitems2, IHe.
    repeat split; try assumption. lia.
  - injection Hrun as <- <- <-.
    replace (maxRetries t - rc) with 0 by lia. simpl.
    repeat split; try assumption. lia.
  - injection Hrun as <- <- <-.
    replace (failedImages w) with (@nil Image)
      by (destruct (failedImages w); [reflexivity | simpl in He; lia]).
    destruct (maxRetries t - rc); simpl; repeat split; try assumption; lia.
  - injection Hrun as <- <- <-.
    replace (maxRetries t - rc) with 0 by lia. simpl.
    repeat split; try assumption. lia.
Qed.

(** The retry loop ends. *)
Lemma retryLoop_runs :
  forall (fuel rc : nat) (w : World),
    isRunning w = true ->
    List.length (failedImages w) + (maxRetries t - rc) < fuel ->
    exists r, retryLoop H fuel t rc w = Some r.
Proof.
  induction fuel as [| fuel IH]; intros rc w Hrunning Hfuel; [lia |].
  simpl.
  destruct (Nat.ltb_spec 0 (List.length (failedImages w))) as [Hne | He];
    destruct (Nat.ltb_spec rc (maxRetries t)) as [Hlt | Hge];
    simpl; try (eexists; reflexivity).
  destruct (batchLoop_runs H (Retry rc) t (failedImages w) positive_batch
              fuel 0 (set_failed [] w) Hrunning)
    as (w2 & e2 & Hround & _ & Hf2 & Hr2 & _); [lia |].
  rewrite Hround. simpl in Hf2.
  destruct (IH (S rc) w2 Hr2) as [[[w3 e3] n3] Hrest].
  - rewrite Hf2.
    pose proof (rejected_of_length H t (failedImages w) (submitted w)). lia.
  - rewrite Hrest. eexists; reflexivity.
Qed.

Lemma retryFailed_result (fuel : nat) (w w' : World) (evs : list Event) :
  isRunning w = true ->
  retryFailed H fuel t w = Some (w', evs) ->
  let plan := retry_plan H t (maxRetries t) (failedImages w) (submitted w) in
  filter not_report evs =
    plan_events H t (fst plan) /\
  failedImages w' = snd plan /\
  isRunning w' = true.
Proof.
  intros Hrunning. unfold retryFailed.
  destruct (failedImages w) as [| f F] eqn:HF; simpl Nat.ltb; cbv iota.
  - intros Hdone. injection Hdone as <- <-. rewrite HF.
    destruct (maxRetries t); simpl; repeat split; assumption.
  - destruct (retryLoop H fuel t 0 w) as [[[w3 e3] n3] |] eqn:Hloop;
      [| discriminate].
    intros Hdone. injection Hdone as <- <-.
    apply retryLoop_plan in Hloop; [| exact Hrunning].
    cbv zeta in Hloop. rewrite Nat.sub_0_r, HF in Hloop.
    destruct Hloop as (He & Hf & Hr & _). repeat split; assumption.
Qed.

End RunFacts.

(** ** Facts about a whole run *)

Section TaskFacts.

Variable H : Host.
Variable t : TaskData.
Hypothesis positive_batch : 0 < batchSize t.

(** The trace of a finished run, reports apart: the submissions of the
    task's images, then of the drained queue, then of the retry
    snapshots, then the stop.  Both arrays are empty afterwards. *)
Lemma uploadTask_trace (fuel : nat) (w w' : World) (evs : list Event) :
  isRunning w = true ->
  uploadTask H fuel (Some t) w = Some (w', evs) ->
  filter not_report evs =
    item_events H t (images t) (submitted w)
    ++ item_events H t (drained H t w) (submitted w + List.length (images t))
    ++ plan_events H t (fst (retries H t w))
    ++ snd (stopService H t w) /\
  queuedImages w' = [] /\
  failedImages w' = [] /\
  isRunning w' = false.
Proof.
  intros Hrunning. unfold uploadTask.
  destruct (batchLoop H fuel Primary t (images t) 0 w) as [[w1 e1] |] eqn:H1;
    [| discriminate].
  destruct (drainQueue H fuel t w1) as [[w2 e2] |] eqn:H2; [| discriminate].
  destruct (retryFailed H fuel t w2) as [[w3 e3] |] eqn:H3; [| discriminate].
  intros Hdone. simpl in Hdone. injection Hdone as <- <-.
  apply batchLoop_from_start in H1; [| exact positive_batch | exact Hrunning].
  destruct H1 as (Hq1 & Hf1 & Hr1 & Hs1 & Hp1 & He1).
  apply drainQueue_result in H2; [| exact positive_batch | exact Hr1].
  destruct H2 as (Hf2 & Hr2 & Hs2 & _ & He2).
  apply retryFailed_result in H3; [| exact positive_batch | exact Hr2].
  cbv zeta in H3. destruct H3 as (He3 & _ & _).
  repeat split.
  rewrite !filter_app, He1, He2, He3.
  unfold retries, first_failures, drained.
  rewrite Hf2, Hs2, Hf1, Hs1, Hq1.
  repeat f_equal.
  unfold stopService. simpl.
  destruct (String.eqb (platformOS H) "ios"); [| reflexivity].
  destruct (onServiceEnd t); reflexivity.
Qed.

(** A run ends, for every fuel from some point on. *)
Lemma uploadTask_runs (w : World) :
  isRunning w = true ->
  exists fuel0 : nat,
    forall fuel : nat,
      fuel0 <= fuel ->
      exists (w' : World) (evs : list Event),
        uploadTask H fuel (Some t) w = Some (w', evs).
Proof.
  intros Hrunning.
  destruct (batchLoop_runs H Primary t (images t) positive_batch
              (S (List.length (images t))) 0 w Hrunning)
    as (w1 & e1 & H1 & _ & _ & Hr1 & _); [lia |].
  assert (H2 : exists w2 e2,
             drainQueue H (S (List.length (queuedImages w1))) t w1
             = Some (w2, e2) /\ isRunning w2 = true).
  { unfold drainQueue.
    destruct (0 <? List.length (queuedImages w1)).
    - destruct (batchLoop_runs H Drain t (queuedImages w1) positive_batch
                  (S (List.length (queuedImages w1))) 0 (set_queued [] w1) Hr1)
        as (w2 & e2 & Hd & _ & _ & Hr2 & _); [lia |].
      exists w2, e2. split; assumption.
    - exists w1, []. split; [reflexivity | exact Hr1]. }
  destruct H2 as (w2 & e2 & H2 & Hr2).
  exists (S (List.length (images t)) + S (List.length (queuedImages w1))
          + S (List.length (failedImages w2) + maxRetries t)).
  intros fuel Hfuel. unfold uploadTask.
  rewrite (batchLoop_fuel H Primary t (images t) _ fuel _ _ _ H1) by lia.
  assert (H2' : drainQueue H fuel t w1 = Some (w2, e2)).
  { revert H2. unfold drainQueue.
    destruct (0 <? List.length (queuedImages w1)); [| trivial].
    intros Hd. apply (batchLoop_fuel H Drain t _ _ fuel _ _ _ Hd). lia. }
  rewrite H2'.
  assert (H3 : exists r, retryFailed H fuel t w2 = Some r).
  { unfold retryFailed.
    destruct (0 <? List.length (failedImages w2)); [| eexists; reflexivity].
    destruct (retryLoop_runs H t positive_batch fuel 0 w2 Hr2)
      as [[[w3 e3] n3] Hloop]; [lia |].
    rewrite Hloop. eexists; reflexivity. }
  destruct H3 as [[w3 e3] H3]. rewrite H3. simpl.
  eexists; eexists; reflexivity.
Qed.

End TaskFacts.

(** ** Counting over the retry plan *)

Section PlanFacts.

Variable H : Host.
Variable t : TaskData.

Lemma posted_plan_events (snapshots : list (list Image * nat)) :
  posted (plan_events H t snapshots) = concat (map fst snapshots).
Proof.
  induction snapshots as [| [F k] rest IH]; simpl; [reflexivity |].
  rewrite posted_app, posted_item_events, IH. reflexivity.
Qed.

(** Each round resubmits at most the occurrences of the round before. *)
Lemma retry_plan_posts (id : string) :
  forall (rounds : nat) (F : list Image) (k : nat),
    occ id (concat (map fst (fst (retry_plan H t rounds F k))))
    <= rounds * occ id F.
Proof.
  induction rounds as [| rounds IH]; intros F k; cbn [retry_plan];
    [cbn [fst map concat]; rewrite occ_nil; lia |].
  destruct F as [| f F]; [cbn [fst map concat]; rewrite !occ_nil; lia |].
  specialize (IH (rejected_of H t (f :: F) k) (k + List.length (f :: F))).
  destruct (retry_plan H t rounds (rejected_of H t (f :: F) k)
                       (k + List.length (f :: F))) as [snaps final].
  cbn [fst map concat]. simpl fst in IH. rewrite occ_app.
  pose proof (rejected_of_occ H t id (f :: F) k). nia.
Qed.

(** An image that is always rejected is resubmitted in every round. *)
Lemma retry_plan_posts_always (id : string) :
  (forall (x : Image) (k : nat), photoId x = id -> rejects H t x k = true) ->
  forall (rounds : nat) (F : list Image) (k : nat),
    occ id (concat (map fst (fst (retry_plan H t rounds F k))))
    = rounds * occ id F.
Proof.
  intros Halways.
  induction rounds as [| rounds IH]; intros F k; cbn [retry_plan];
    [reflexivity |].
  destruct F as [| f F]; [cbn [fst map concat]; rewrite !occ_nil; lia |].
  specialize (IH (rejected_of H t (f :: F) k) (k + List.length (f :: F))).
  destruct (retry_plan H t rounds (rejected_of H t (f :: F) k)
                       (k + List.length (f :: F))) as [snaps final].
  cbn [fst map concat]. simpl fst in IH. rewrite occ_app, IH.
  rewrite (rejected_of_always H t id (f :: F) Halways). reflexivity.
Qed.

(** Callbacks of the retry rounds when the success callback does not
    throw: every occurrence in the first failure set either gets one
    success callback or is in the last failure set, and each
    resubmission gets exactly one callback. *)
Lemma retry_plan_callbacks (id : string) (cs cf : Callback) :
  onSuccess t = Some cs ->
  onFailure t = Some cf ->
  (forall (d : Json) (i : string) (n : nat),
      thrown_by_onSuccess H cs d i n = None) ->
  forall (rounds : nat) (F : list Image) (k : nat),
    let plan := retry_plan H t rounds F k in
    times id (succeeded (plan_events H t (fst plan))) + occ id (snd plan)
      = occ id F /\
    times id (succeeded (plan_events H t (fst plan)))
      + times id (rejected (plan_events H t (fst plan)))
      = occ id (concat (map fst (fst plan))).
Proof.
  intros Hs Hf Hquiet.
  induction rounds as [| rounds IH]; intros F k; simpl; [split; reflexivity |].
  destruct F as [| f F]; [split; reflexivity |].
  specialize (IH (rejected_of H t (f :: F) k) (k + List.length (f :: F))).
  cbv zeta in IH.
  destruct (retry_plan H t rounds (rejected_of H t (f :: F) k)
                       (k + List.length (f :: F))) as [snaps final].
  cbn [fst snd map concat] in IH |- *.
  change (plan_events H t ((f :: F, k) :: snaps))
    with (item_events H t (f :: F) k ++ plan_events H t snaps).
  destruct IH as [IHs IHc].
  destruct (item_events_callbacks H t id (f :: F) cs cf Hs Hf Hquiet k)
    as [Hsx Hfx].
  rewrite succeeded_app, rejected_app, !times_app, occ_app.
  split; lia.
Qed.

(** The rounds of the plan follow one another in the numbering of the
    submissions: their events are those of the snapshots put end to
    end. *)
Lemma plan_events_flat :
  forall (rounds : nat) (F : list Image) (k : nat),
    plan_events H t (fst (retry_plan H t rounds F k)) =
    item_events H t (concat (map fst (fst (retry_plan H t rounds F k)))) k.
Proof.
  induction rounds as [| rounds IH]; intros F k; cbn [retry_plan];
    [reflexivity |].
  destruct F as [| f F]; [reflexivity |].
  specialize (IH (rejected_of H t (f :: F) k) (k + List.length (f :: F))).
  destruct (retry_plan H t rounds (rejected_of H t (f :: F) k)
                       (k + List.length (f :: F))) as [snaps final].
  cbn [fst map concat] in IH |- *.
  change (plan_events H t ((f :: F, k) :: snaps))
    with (item_events H t (f :: F) k ++ plan_events H t snaps).
  rewrite IH, item_events_app. reflexivity.
Qed.

End PlanFacts.

(** ** Properties of every event of a loop *)

Section EventFacts.

Variable H : Host.
Variable t : TaskData.

Lemma item_events_forall (P : Event -> Prop) :
  (forall (x : Image) (k : nat), Forall P (promise_events H t x k)) ->
  forall (xs : list Image) (k : nat), Forall P (item_events H t xs k).
Proof.
  intros Hone. induction xs as [| x xs IH]; intros k; simpl.
  - constructor.
  - apply Forall_app. split; [apply Hone | apply IH].
Qed.

(** A property of the events of the submissions and of the report of
    every slice is a property of the whole trace of the loop. *)
Lemma batchLoop_forall (P : Event -> Prop) (ph : Phase) (xs : list Image) :
  (forall (x : Image) (k : nat), Forall P (promise_events H t x k)) ->
  (forall (cb : Callback) (i : nat) (w : World),
      onBatchComplete t = Some cb ->
      P (EvBatchComplete cb
           (snd (uploadPromises H ph t (submitted w)
                (slice xs i (i + batchSize t)) w))
           (i / batchSize t + 1))) ->
  forall (fuel i : nat) (w w' : World) (evs : list Event),
    batchLoop H fuel ph t xs i w = Some (w', evs) ->
    Forall P evs.
Proof.
  intros Hone Hreport.
  induction fuel as [| fuel IH]; intros i w w' evs Hrun; [discriminate |].
  simpl in Hrun. destruct (i <? List.length xs).
  - pose proof (uploadPromises_events H ph t (submitted w)
                  (slice xs i (i + batchSize t)) w)
      as Hev.
    specialize (Hreport) with (i := i) (w := w).
    destruct (uploadPromises H ph t (submitted w)
                (slice xs i (i + batchSize t)) w)
      as [[w1 e1] result]. simpl in Hev, Hreport.
    destruct (batchLoop H fuel ph t xs (i + batchSize t) (awaitAllSettled H w1))
      as [[w3 e3] |] eqn:Hrest; [| discriminate].
    injection Hrun as <- <-.
    apply Forall_app. split.
    + rewrite Hev. apply item_events_forall. exact Hone.
    + apply Forall_app. split; [| exact (IH _ _ _ _ Hrest)].
      destruct (onBatchComplete t) as [cb |]; simpl; constructor.
      * apply Hreport. reflexivity.
      * constructor.
  - injection Hrun as <- <-. constructor.
Qed.

Lemma retryLoop_forall (P : Event -> Prop) :
  (forall (x : Image) (k : nat), Forall P (promise_events H t x k)) ->
  (forall (cb : Callback) (ph : Phase) (batch : list Image) (n m : nat)
          (w : World),
      onBatchComplete t = Some cb ->
      List.length batch <= batchSize t ->
      P (EvBatchComplete cb (snd (uploadPromises H ph t m batch w)) n)) ->
  forall (fuel rc : nat) (w w' : World) (evs : list Event) (n : nat),
    retryLoop H fuel t rc w = Some (w', evs, n) ->
    Forall P evs.
Proof.
  intros Hone Hreport.
  induction fuel as [| fuel IH]; intros rc w w' evs n Hrun; [discriminate |].
  simpl in Hrun.
  destruct ((0 <? List.length (failedImages w)) && (rc <? maxRetries t)).
  - destruct (batchLoop H fuel (Retry rc) t (failedImages w) 0
                        (set_failed [] w)) as [[w2 e2] |] eqn:Hround;
      [| discriminate].
    destruct (retryLoop H fuel t (S rc) w2) as [[[w3 e3] n3] |] eqn:Hrest;
      [| discriminate].
    injection Hrun as <- <- <-.
    apply Forall_app. split; [| exact (IH _ _ _ _ _ Hrest)].
    apply (batchLoop_forall P (Retry rc) (failedImages w) Hone) in Hround;
      [exact Hround |].
    intros cb i w0 Hcb. apply Hreport; [exact Hcb |].
    rewrite slice_from. apply firstn_le_length.
  - injection Hrun as <- <- <-. constructor.
Qed.

(** The same for a whole run, the events of the stop included. *)
Lemma uploadTask_forall (P : Event -> Prop) :
  (forall (x : Image) (k : nat), Forall P (promise_events H t x k)) ->
  (forall (cb : Callback) (ph : Phase) (batch : list Image) (n m : nat)
          (w : World),
      onBatchComplete t = Some cb ->
      List.length batch <= batchSize t ->
      P (EvBatchComplete cb (snd (uploadPromises H ph t m batch w)) n)) ->
  forall (fuel : nat) (w w' : World) (evs : list Event),
    uploadTask H fuel (Some t) w = Some (w', evs) ->
    exists (before : list Event) (w3 : World),
      evs = before ++ snd (stopService H t w3) /\
      w' = fst (stopService H t w3) /\
      Forall P before.
Proof.
  intros Hone Hreport fuel w w' evs. unfold uploadTask.
  destruct (batchLoop H fuel Primary t (images t) 0 w) as [[w1 e1] |] eqn:H1;
    [| discriminate].
  destruct (drainQueue H fuel t w1) as [[w2 e2] |] eqn:H2; [| discriminate].
  destruct (retryFailed H fuel t w2) as [[w3 e3] |] eqn:H3; [| discriminate].
  intros Hdone. simpl in Hdone. injection Hdone as <- <-.
  exists (e1 ++ e2 ++ e3), w3. repeat split.
  - rewrite <- !app_assoc. reflexivity.
  - assert (Hslice : forall (ph : Phase) (xs : list Image) (cb : Callback)
                            (i : nat) (w0 : World),
               onBatchComplete t = Some cb ->
               P (EvBatchComplete cb
                    (snd (uploadPromises H ph t (submitted w0)
                (slice xs i (i + batchSize t)) w0))
                    (i / batchSize t + 1))).
    { intros ph xs cb i w0 Hcb. apply Hreport; [exact Hcb |].
      rewrite slice_from. apply firstn_le_length. }
    apply Forall_app. split; [| apply Forall_app; split].
    + exact (batchLoop_forall P Primary (images t) Hone
               (Hslice Primary (images t)) _ _ _ _ _ H1).
    + revert H2. unfold drainQueue.
      destruct (0 <? List.length (queuedImages w1)).
      * intros H2.
        exact (batchLoop_forall P Drain (queuedImages w1) Hone
                 (Hslice Drain (queuedImages w1)) _ _ _ _ _ H2).
      * intros H2. injection H2 as <- <-. constructor.
    + revert H3. unfold retryFailed.
      destruct (0 <? List.length (failedImages w2)).
      * destruct (retryLoop H fuel t 0 w2) as [[[w4 e4] n4] |] eqn:Hloop;
          [| discriminate].
        intros H3. injection H3 as <- <-.
        exact (retryLoop_forall P Hone Hreport _ _ _ _ _ _ Hloop).
      * intros H3. injection H3 as <- <-. constructor.
Qed.





End EventFacts.

(** ** Further facts used by the claims *)

Lemma ceil_div_more (n b k : nat) :
  0 < b -> S k < ceil_div n b -> k * b + b < n.
Proof.
  intros Hb Hk. unfold ceil_div in Hk.
  destruct (le_lt_dec n (k * b + b)) as [Hle | Hlt]; [| exact Hlt].
  exfalso.
  assert (Hup : (n + b - 1) / b < S (S k)).
  { apply Nat.Div0.div_lt_upper_bound; nia. }
  lia.
Qed.

Lemma retry_plan_exit (H : Host) (t : TaskData) :
  forall (rounds : nat) (F : list Image) (k : nat),
    let plan := retry_plan H t rounds F k in
    List.length (fst plan) <= rounds /\
    (snd plan = [] \/ List.length (fst plan) = rounds).
Proof.
  induction rounds as [| rounds IH]; intros F k; cbn [retry_plan].
  - simpl. split; [lia | right; reflexivity].
  - destruct F as [| f F]; [simpl; split; [lia | left; reflexivity] |].
    specialize (IH (rejected_of H t (f :: F) k) (k + List.length (f :: F))).
    cbv zeta in IH.
    destruct (retry_plan H t rounds (rejected_of H t (f :: F) k)
                         (k + List.length (f :: F))) as [snaps final].
    simpl in IH |- *. destruct IH as [Hle [Hnil | Hfull]].
    + split; [lia | left; exact Hnil].
    + split; [lia | right; lia].
Qed.

Lemma stopService_quiet (H : Host) (t : TaskData) (w : World) :
  posted (snd (stopService H t w)) = [] /\
  succeeded (snd (stopService H t w)) = [] /\
  rejected (snd (stopService H t w)) = [].
Proof.
  unfold stopService. simpl.
  destruct (String.eqb (platformOS H) "ios"); [| repeat split].
  destruct (onServiceEnd t); repeat split.
Qed.

(** What a finished run submitted, in order. *)
Lemma uploadTask_posted (H : Host) (t : TaskData) (fuel : nat)
    (w w' : World) (evs : list Event) :
  0 < batchSize t ->
  isRunning w = true ->
  uploadTask H fuel (Some t) w = Some (w', evs) ->
  posted evs =
    images t ++ drained H t w ++ concat (map fst (fst (retries H t w))).
Proof.
  intros Hbs Hrunning Hrun.
  destruct (uploadTask_trace H t Hbs fuel w w' evs Hrunning Hrun)
    as (Htrace & _).
  rewrite <- posted_not_report, Htrace, !posted_app, !posted_item_events.
  rewrite posted_plan_events.
  destruct (stopService_quiet H t w) as (Hp & _). rewrite Hp, app_nil_r.
  reflexivity.
Qed.

Lemma promise_events_items (H : Host) (t : TaskData) (x : Image) (k : nat) :
  Forall (fun ev => is_phase_event ev = true) (promise_events H t x k).
Proof.
  promise_shapes H t; simpl; repeat constructor.
Qed.

Lemma phase_events_no_end (evs : list Event) :
  Forall (fun ev => is_phase_event ev = true) evs ->
  service_ends evs = [] /\ ~ In EvBackgroundStop evs.
Proof.
  induction 1 as [| ev evs Hev _ [IHe IHs]]; [split; [reflexivity | tauto] |].
  destruct ev; simpl in Hev; try discriminate; simpl;
    (split; [exact IHe | intros [Heq | Hin]; [discriminate | tauto]]).
Qed.

Lemma batchLoop_ends (H : Host) (ph : Phase) (t : TaskData) (xs : list Image) :
  0 < batchSize t ->
  forall (fuel i : nat) (w : World),
    List.length xs - i < fuel ->
    exists r, batchLoop H fuel ph t xs i w = Some r.
Proof.
  intros Hbs. induction fuel as [| fuel IH]; intros i w Hfuel; [lia |].
  simpl. destruct (Nat.ltb_spec i (List.length xs)) as [Hlt | Hge].
  - destruct (uploadPromises H ph t (submitted w)
                (slice xs i (i + batchSize t)) w)
      as [[w1 e1] result].
    destruct (IH (i + batchSize t) (awaitAllSettled H w1)) as [[w3 e3] Hrest];
      [lia |].
    rewrite Hrest. eexists; reflexivity.
  - eexists; reflexivity.
Qed.


(** Reports and stop apart, the trace of a finished run is the trace of
    its submissions, numbered from the first one on. *)
Lemma uploadTask_items (H : Host) (t : TaskData) (fuel : nat)
    (w w' : World) (evs : list Event) :
  0 < batchSize t ->
  isRunning w = true ->
  uploadTask H fuel (Some t) w = Some (w', evs) ->
  filter not_report evs =
    item_events H t (posted evs) (submitted w) ++ snd (stopService H t w).
Proof.
  intros Hbs Hrunning Hrun.
  rewrite (uploadTask_posted H t fuel w w' evs Hbs Hrunning Hrun).
  destruct (uploadTask_trace H t Hbs fuel w w' evs Hrunning Hrun)
    as (Htrace & _).
  rewrite Htrace, !item_events_app, <- !app_assoc.
  unfold retries at 1. rewrite plan_events_flat.
  reflexivity.
Qed.

(** ** The scenarios of the specification, run on the model *)

(** 25 images, batches of 10, every upload accepted: three reports of
    sizes 10, 10 and 5, 25 success callbacks, no failure callback, both
    arrays empty at the end. *)
Example scenario_all_accepted :
  exists (w' : World) (evs : list Event),
    uploadTask host_ok 30 (Some (task_of (lettered 25) 10 3)) running
      = Some (w', evs) /\
    map (fun r => (fst r, List.length (snd r))) (reports evs)
      = [(1, 10); (2, 10); (3, 5)] /\
    List.length (succeeded evs) = 25 /\
    rejected evs = [] /\
    queuedImages w' = [] /\
    failedImages w' = [].
Proof.
  do 2 eexists. vm_compute. repeat split.
Qed.

(** 5 images, batches of 10, two retry rounds, every upload rejected:
    one report for the first pass and one for each retry round, five
    failure callbacks in each of the three passes, and the run ends. *)
Example scenario_all_rejected :
  exists (w' : World) (evs : list Event),
    uploadTask host_down 30 (Some (task_of (lettered 5) 10 2)) running
      = Some (w', evs) /\
    map (fun r => (fst r, List.length (snd r))) (reports evs)
      = [(1, 5); (1, 5); (1, 5)] /\
    succeeded evs = [] /\
    List.length (rejected evs) = 15 /\
    service_ends evs = [4] /\
    failedImages w' = [].
Proof.
  do 2 eexists. vm_compute. repeat split.
Qed.

(** A request arriving during the first pass is served by the drain
    block, after the task's own images. *)
Example scenario_queued_request :
  exists (w' : World) (evs : list Event),
    uploadTask host_busy 30 (Some (task_of (lettered 3) 10 3)) running
      = Some (w', evs) /\
    map photoId (posted evs) = ["A"; "B"; "C"; "b"] /\
    succeeded evs = ["A"; "B"; "C"; "b"].
Proof.
  do 2 eexists. vm_compute. repeat split.
Qed.

(** One image, one retry round, the transport accepts and [onSuccess]
    throws: the image is uploaded twice, and each upload is answered by
    a success callback followed by a failure callback and is reported as
    rejected, the second time with the retry round. *)
Example scenario_throwing_callback :
  exists (w' : World) (evs : list Event),
    uploadTask host_touchy 5 (Some (task_of [img "a"] 10 1)) running
      = Some (w', evs) /\
    map photoId (posted evs) = ["a"; "a"] /\
    succeeded evs = ["a"; "a"] /\
    rejected evs = ["a"; "a"] /\
    reports evs =
      [(1, [Rejected {| rej_error := "onSuccess failed"; rej_photoId := "a";
                        rej_retryCount := None |}]);
       (1, [Rejected {| rej_error := "onSuccess failed"; rej_photoId := "a";
                        rej_retryCount := Some 0 |}])].
Proof.
  do 2 eexists. vm_compute. repeat split.
Qed.

(** ** The claims *)

(** C1.  With a positive batch size, each batch loop of [uploadTask]
    ends, and what it submits between two reports is a partition of the
    sequence into contiguous slices in the original order: there are
    [ceil (itemCount / batchSize)] batches, batch [k] is
    [xs.slice(k * batchSize, k * batchSize + batchSize)], it has at most
    [batchSize] images and exactly [batchSize] unless it is the last, its
    report carries one settlement per image, and the batch number given
    to [onBatchComplete] is [floor (offset / batchSize) + 1], which is
    [k + 1]. *)
Theorem batches_partition (H : Host) (ph : Phase) (t : TaskData)
    (xs : list Image) (w : World) (cb : Callback) :
  0 < batchSize t ->
  onBatchComplete t = Some cb ->
  exists fuel0 : nat,
    forall fuel : nat,
      fuel0 <= fuel ->
      exists (w' : World) (evs : list Event),
        batchLoop H fuel ph t xs 0 w = Some (w', evs) /\
        let seen := batches_seen evs [] in
        List.length seen = ceil_div (List.length xs) (batchSize t) /\
        concat (map snd seen) = xs /\
        map (fun r => (fst r, List.length (snd r))) (reports evs) =
          map (fun b => (fst b, List.length (snd b))) seen /\
        forall k : nat,
          k < List.length seen ->
          let offset := k * batchSize t in
          let batch := slice xs offset (offset + batchSize t) in
          nth_error seen k = Some (offset / batchSize t + 1, batch) /\
          offset / batchSize t + 1 = k + 1 /\
          List.length batch <= batchSize t /\
          (S k < List.length seen -> List.length batch = batchSize t).
Proof.
  intros Hbs Hcb. exists (S (List.length xs)). intros fuel Hfuel.
  destruct (batchLoop_batches H ph t xs cb Hbs Hcb fuel 0 w)
    as (w' & evs & Hrun & Hn & Hcat & Hrep & Hnth); [lia |].
  rewrite Nat.sub_0_r in Hn, Hnth.
  exists w', evs. split; [exact Hrun |]. cbv zeta.
  split; [exact Hn |]. split; [exact Hcat |]. split; [exact Hrep |].
  intros k Hk. rewrite Hn in Hk. repeat split.
  - rewrite (Hnth k Hk). reflexivity.
  - rewrite Nat.div_mul by lia. reflexivity.
  - rewrite slice_from. apply firstn_le_length.
  - intros Hmore. rewrite Hn in Hmore.
    apply ceil_div_more in Hmore; [| exact Hbs].
    rewrite slice_length. lia.
Qed.

Lemma batches_partition_witness :
  0 < batchSize (task_of [img "a"; img "b"; img "c"] 2 1) /\
  onBatchComplete (task_of [img "a"; img "b"; img "c"] 2 1) = Some 3 /\
  exists fuel0 : nat,
    forall fuel : nat,
      fuel0 <= fuel ->
      exists (w' : World) (evs : list Event),
        batchLoop host_ok fuel Primary
                  (task_of [img "a"; img "b"; img "c"] 2 1)
                  [img "a"; img "b"; img "c"] 0 running = Some (w', evs) /\
        let seen := batches_seen evs [] in
        List.length seen = ceil_div 3 2 /\
        concat (map snd seen) = [img "a"; img "b"; img "c"] /\
        map (fun r => (fst r, List.length (snd r))) (reports evs) =
          map (fun b => (fst b, List.length (snd b))) seen /\
        forall k : nat,
          k < List.length seen ->
          let offset := k * 2 in
          let batch := slice [img "a"; img "b"; img "c"] offset (offset + 2) in
          nth_error seen k = Some (offset / 2 + 1, batch) /\
          offset / 2 + 1 = k + 1 /\
          List.length batch <= 2 /\
          (S k < List.length seen -> List.length batch = 2).
Proof.
  split; [simpl; lia |]. split; [reflexivity |].
  apply (batches_partition host_ok Primary
           (task_of [img "a"; img "b"; img "c"] 2 1)
           [img "a"; img "b"; img "c"] running 3);
    [simpl; lia | reflexivity].
Defined.

(** C2.  With [maxRetries = N], a positive batch size and an empty
    failure set at the start, a run ends, and an image whose submission
    is rejected every time is submitted [1 + N] times for each of its
    occurrences among the task's images and the drained queue: once, and
    [N] more times after its first failure.  The submissions of the run
    are the task's images, the drained queue and then the snapshots of
    the retry plan ([retries]): each round takes the failure set as its
    snapshot, starts from an empty set, and the images rejected in the
    round are the next set; there are at most [N] rounds, and fewer only
    when the set is empty.  Nothing is left in the failure set at the
    end. *)
Theorem retry_bound (H : Host) (t : TaskData) (w : World) (id : string) :
  0 < batchSize t ->
  isRunning w = true ->
  failedImages w = [] ->
  (forall (x : Image) (k : nat), photoId x = id -> rejects H t x k = true) ->
  exists fuel0 : nat,
    forall fuel : nat,
      fuel0 <= fuel ->
      exists (w' : World) (evs : list Event),
        uploadTask H fuel (Some t) w = Some (w', evs) /\
        occ id (posted evs) =
          (1 + maxRetries t) * occ id (images t ++ drained H t w) /\
        posted evs =
          images t ++ drained H t w
          ++ concat (map fst (fst (retries H t w))) /\
        List.length (fst (retries H t w)) <= maxRetries t /\
        (snd (retries H t w) = [] \/
         List.length (fst (retries H t w)) = maxRetries t) /\
        failedImages w' = [].
Proof.
  intros Hbs Hrunning Hfresh Halways.
  destruct (uploadTask_runs H t Hbs w Hrunning) as [fuel0 Hends].
  exists fuel0. intros fuel Hfuel.
  destruct (Hends fuel Hfuel) as (w' & evs & Hrun).
  exists w', evs. split; [exact Hrun |].
  pose proof (uploadTask_posted H t fuel w w' evs Hbs Hrunning Hrun) as Hposted.
  destruct (uploadTask_trace H t Hbs fuel w w' evs Hrunning Hrun)
    as (_ & _ & Hfailed & _).
  destruct (retry_plan_exit H t (maxRetries t) (first_failures H t w)
              (submitted w + List.length (images t)
               + List.length (drained H t w))) as [Hle Hexit].
  fold (retries H t w) in Hle, Hexit.
  repeat split; try assumption.
  rewrite Hposted, !occ_app. unfold retries.
  rewrite (retry_plan_posts_always H t id Halways).
  unfold first_failures. rewrite Hfresh, !occ_app.
  rewrite !(rejected_of_always H t id _ Halways), occ_nil. lia.
Qed.

Lemma retry_bound_witness :
  0 < batchSize (task_of [img "a"] 10 2) /\
  isRunning running = true /\
  failedImages running = [] /\
  (forall (x : Image) (k : nat),
      photoId x = "a" -> rejects host_down (task_of [img "a"] 10 2) x k = true) /\
  exists fuel0 : nat,
    forall fuel : nat,
      fuel0 <= fuel ->
      exists (w' : World) (evs : list Event),
        uploadTask host_down fuel (Some (task_of [img "a"] 10 2)) running
          = Some (w', evs) /\
        occ "a" (posted evs) =
          (1 + 2) * occ "a" ([img "a"]
                             ++ drained host_down (task_of [img "a"] 10 2)
                                        running) /\
        posted evs =
          [img "a"] ++ drained host_down (task_of [img "a"] 10 2) running
          ++ concat (map fst (fst (retries host_down (task_of [img "a"] 10 2)
                                           running))) /\
        List.length (fst (retries host_down (task_of [img "a"] 10 2) running))
          <= 2 /\
        (snd (retries host_down (task_of [img "a"] 10 2) running) = [] \/
         List.length (fst (retries host_down (task_of [img "a"] 10 2) running))
           = 2) /\
        failedImages w' = [].
Proof.
  assert (Hdown : forall (x : Image) (k : nat),
             photoId x = "a" ->
             rejects host_down (task_of [img "a"] 10 2) x k = true)
    by (intros x k _; reflexivity).
  split; [simpl; lia |]. split; [reflexivity |]. split; [reflexivity |].
  split; [exact Hdown |].
  apply (retry_bound host_down (task_of [img "a"] 10 2) running "a");
    [simpl; lia | reflexivity | reflexivity | exact Hdown].
Defined.

(** C3.  While the service is running, a call of
    [startBackgroundUpload] starts nothing and calls nothing: it returns
    at once with its images appended to the queue and the rest of the
    world unchanged.  Whatever requests arrive, the first pass of the
    active run submits the task's own images and nothing else, and leaves
    the arrivals on the queue; the drain block then submits exactly what
    it finds on the queue. *)
Theorem second_request_is_queued (H : Host) (w : World) :
  isRunning w = true ->
  (forall rq : UploadRequest,
      startBackgroundUpload H rq w =
      (set_queued (queuedImages w ++ uo_images (uploadOptions rq)) w,
       [], Queued)) /\
  (forall t : TaskData,
      0 < batchSize t ->
      exists fuel0 : nat,
        forall fuel : nat,
          fuel0 <= fuel ->
          exists (w1 : World) (e1 : list Event),
            batchLoop H fuel Primary t (images t) 0 w = Some (w1, e1) /\
            posted e1 = images t /\
            queuedImages w1 = drained H t w /\
            isRunning w1 = true /\
            forall (w2 : World) (e2 : list Event),
              drainQueue H fuel t w1 = Some (w2, e2) ->
              posted e2 = drained H t w).
Proof.
  intros Hrunning. split.
  - intros rq. unfold startBackgroundUpload. rewrite Hrunning. reflexivity.
  - intros t Hbs. exists (S (List.length (images t))). intros fuel Hfuel.
    destruct (batchLoop_ends H Primary t (images t) Hbs fuel 0 w)
      as [[w1 e1] Hrun]; [lia |].
    exists w1, e1. split; [exact Hrun |].
    destruct (batchLoop_from_start H t Hbs Primary (images t) fuel w w1 e1
                Hrunning Hrun) as (Hq & _ & Hr & _ & _ & Hitems).
    split; [| split; [exact Hq | split; [exact Hr |]]].
    + rewrite <- posted_not_report, Hitems. apply posted_item_events.
    + intros w2 e2 Hdrain.
      destruct (drainQueue_result H t Hbs fuel w1 w2 e2 Hr Hdrain)
        as (_ & _ & _ & _ & Hitems2).
      rewrite <- posted_not_report, Hitems2, posted_item_events. exact Hq.
Qed.

Lemma second_request_is_queued_witness :
  isRunning running = true /\
  0 < batchSize (task_of [img "a"] 10 3) /\
  (forall rq : UploadRequest,
      startBackgroundUpload host_busy rq running =
      (set_queued (queuedImages running ++ uo_images (uploadOptions rq))
                  running,
       [], Queued)) /\
  exists fuel0 : nat,
    forall fuel : nat,
      fuel0 <= fuel ->
      exists (w1 : World) (e1 : list Event),
        batchLoop host_busy fuel Primary (task_of [img "a"] 10 3)
                  (images (task_of [img "a"] 10 3)) 0 running
          = Some (w1, e1) /\
        posted e1 = images (task_of [img "a"] 10 3) /\
        queuedImages w1 = drained host_busy (task_of [img "a"] 10 3) running /\
        isRunning w1 = true /\
        forall (w2 : World) (e2 : list Event),
          drainQueue host_busy fuel (task_of [img "a"] 10 3) w1
            = Some (w2, e2) ->
          posted e2 = drained host_busy (task_of [img "a"] 10 3) running.
Proof.
  destruct (second_request_is_queued host_busy running eq_refl)
    as [Hqueued Hpass].
  split; [reflexivity |]. split; [simpl; lia |]. split; [exact Hqueued |].
  apply (Hpass (task_of [img "a"] 10 3)). simpl; lia.
Defined.

(** C4.  With the flag off the compressor is not called and the
    original [uri] is submitted.  With the flag on and a compressor that
    throws, [uploadImage] does not fail for that: it has called the
    compressor once, submits the form built from the original [uri], and
    its outcome is the transport's answer to that form. *)
Theorem transform_fallback (H : Host) (image : Image) (target : string)
    (inst : AxiosInstance) (k : nat) :
  uploadImage H image target false inst k =
    ([EvPost image inst target (formData image (uri image))],
     post H inst target (formData image (uri image)) k) /\
  (compress H (uri image) k = None ->
   compressImage H (uri image) k = ([EvCompress (uri image)], uri image) /\
   uploadImage H image target true inst k =
     ([EvCompress (uri image);
       EvPost image inst target (formData image (uri image))],
      post H inst target (formData image (uri image)) k)).
Proof.
  split; [reflexivity |].
  intros Hthrows. unfold uploadImage, compressImage. rewrite Hthrows.
  split; reflexivity.
Qed.

Lemma transform_fallback_witness :
  compress host_down (uri (img "a")) 0 = None /\
  uploadImage host_down (img "a") "https://upload" false 0 0 =
    ([EvPost (img "a") 0 "https://upload" (formData (img "a") (uri (img "a")))],
     post host_down 0 "https://upload" (formData (img "a") (uri (img "a"))) 0) /\
  compressImage host_down (uri (img "a")) 0
    = ([EvCompress (uri (img "a"))], uri (img "a")) /\
  uploadImage host_down (img "a") "https://upload" true 0 0 =
    ([EvCompress (uri (img "a"));
      EvPost (img "a") 0 "https://upload" (formData (img "a") (uri (img "a")))],
     post host_down 0 "https://upload" (formData (img "a") (uri (img "a"))) 0).
Proof.
  destruct (transform_fallback host_down (img "a") "https://upload" 0 0)
    as [Hoff Hon].
  split; [reflexivity |]. split; [exact Hoff |]. apply Hon. reflexivity.
Defined.

(** C5, as stated, fails: an error whose response has a status and no
    body does not carry a status code plus a response body, and yet
    [getError] does not return it unchanged: it returns a record, with
    [{}] in place of the body. *)
Lemma classified_as_specified_fails :
  ~ classified_as_specified bodiless_error (getError bodiless_error).
Proof.
  unfold classified_as_specified. simpl. discriminate.
Qed.

(** C5, amended.  [getError] is a function of the error alone (it
    reads no state and causes no event).  For an error that carries a
    response it returns an [{error, status}] record: [error] is the body
    of the response, or [{}] when the body is null or missing, and
    [status] is the status of the response, or 0 when it is missing.  For
    an error without a response it returns the error as it is. *)
Theorem getError_defaults (error : AxiosError) :
  (forall r : AxiosResponse,
      response error = Some r ->
      exists e : ErrorResponse,
        getError error = inl e /\
        (resp_data r <> JNull -> er_error e = resp_data r) /\
        (resp_data r = JNull -> er_error e = JObj []) /\
        (forall code : Z, resp_status r = Some code -> er_status e = code) /\
        (resp_status r = None -> er_status e = 0%Z)) /\
  (response error = None -> getError error = inr error).
Proof.
  unfold getError. split.
  - intros r Hr. rewrite Hr. eexists. split; [reflexivity |]. simpl.
    repeat split.
    + intros Hbody. destruct (resp_data r); [contradiction | reflexivity ..].
    + intros Hbody. rewrite Hbody. reflexivity.
    + intros code Hcode. rewrite Hcode. reflexivity.
    + intros Hcode. rewrite Hcode. reflexivity.
  - intros Hr. rewrite Hr. reflexivity.
Qed.

Lemma getError_defaults_witness :
  response bodiless_error
    = Some {| resp_data := JNull; resp_status := Some 500%Z |} /\
  response network_error = None /\
  (exists e : ErrorResponse,
      getError bodiless_error = inl e /\
      er_error e = JObj [] /\
      er_status e = 500%Z) /\
  (exists e : ErrorResponse,
      getError server_error = inl e /\
      er_error e = JText "boom" /\
      er_status e = 500%Z) /\
  getError network_error = inr network_error.
Proof.
  split; [reflexivity |]. split; [reflexivity |].
  split; [| split].
  - destruct (proj1 (getError_defaults bodiless_error) _ eq_refl)
      as (e & He & _ & Hempty & Hstatus & _).
    exists e. split; [exact He |]. split.
    + apply Hempty. reflexivity.
    + apply (Hstatus 500%Z). reflexivity.
  - destruct (proj1 (getError_defaults server_error) _ eq_refl)
      as (e & He & Hbody & _ & Hstatus & _).
    exists e. split; [exact He |]. split.
    + apply Hbody. discriminate.
    + apply (Hstatus 500%Z). reflexivity.
  - apply (proj2 (getError_defaults network_error)). reflexivity.
Defined.

(** C6, as stated, fails: with one retry round, an image that is
    rejected twice gets two failure callbacks. *)
Lemma one_callback_each_fails :
  ~ one_callback_each
      (trace_of (uploadTask host_down 5 (Some (task_of [img "a"] 10 1)) running))
      [img "a"].
Proof.
  intros Hclaim. specialize (Hclaim (img "a") (or_introl eq_refl)).
  vm_compute in Hclaim. discriminate.
Qed.

(** C6, amended.  With a positive batch size, both per-item callbacks
    supplied and an empty failure set at the start, a run ends.  Its
    submissions are the task's images, the drained queue, and then round
    after round the images whose promise was rejected in the pass before
    ([retries]).  For every identifier, with [n] its occurrences among
    the task's images and the drained queue: it is submitted at least [n]
    and at most [(1 + maxRetries) * n] times; [onSuccess] is called for
    it as many times as the transport accepts a submission of it, and
    [onFailure] as many times as the promise of a submission of it is
    rejected, because the transport rejects it or because [onSuccess]
    throws.  So an image is reported through [onFailure] again on every
    failed retry.  When [onSuccess] never throws, every submission is
    answered by exactly one callback, and at most [n] of the callbacks
    for the identifier are success callbacks. *)
Theorem callbacks_per_item (H : Host) (t : TaskData) (w : World)
    (cs cf : Callback) :
  0 < batchSize t ->
  isRunning w = true ->
  failedImages w = [] ->
  onSuccess t = Some cs ->
  onFailure t = Some cf ->
  exists fuel0 : nat,
    forall fuel : nat,
      fuel0 <= fuel ->
      exists (w' : World) (evs : list Event),
        uploadTask H fuel (Some t) w = Some (w', evs) /\
        posted evs =
          images t ++ drained H t w
          ++ concat (map fst (fst (retries H t w))) /\
        forall id : string,
          let n := occ id (images t ++ drained H t w) in
          n <= occ id (posted evs) /\
          occ id (posted evs) <= (1 + maxRetries t) * n /\
          times id (succeeded evs) =
            occ id (accepted_of H t (posted evs) (submitted w)) /\
          times id (rejected evs) =
            occ id (rejected_of H t (posted evs) (submitted w)) /\
          ((forall (d : Json) (i : string) (k : nat),
               thrown_by_onSuccess H cs d i k = None) ->
           times id (succeeded evs) + times id (rejected evs)
             = occ id (posted evs) /\
           times id (succeeded evs) <= n).
Proof.
  intros Hbs Hrunning Hfresh Hs Hf.
  destruct (uploadTask_runs H t Hbs w Hrunning) as [fuel0 Hends].
  exists fuel0. intros fuel Hfuel.
  destruct (Hends fuel Hfuel) as (w' & evs & Hrun).
  exists w', evs. split; [exact Hrun |].
  pose proof (uploadTask_posted H t fuel w w' evs Hbs Hrunning Hrun) as Hposted.
  pose proof (uploadTask_items H t fuel w w' evs Hbs Hrunning Hrun) as Hitems.
  destruct (uploadTask_trace H t Hbs fuel w w' evs Hrunning Hrun)
    as (Htrace & _).
  destruct (stopService_quiet H t w) as (_ & Hss & Hsr).
  assert (Hsucc : succeeded evs =
            map photoId (accepted_of H t (posted evs) (submitted w))).
  { rewrite <- succeeded_not_report, Hitems, succeeded_app, Hss, app_nil_r.
    apply (succeeded_item_events H t _ cs Hs). }
  assert (Hrej : rejected evs =
            map photoId (rejected_of H t (posted evs) (submitted w))).
  { rewrite <- rejected_not_report, Hitems, rejected_app, Hsr, app_nil_r.
    apply (rejected_item_events H t _ cf Hf). }
  split; [exact Hposted |].
  intros id. cbv zeta.
  pose proof (retry_plan_posts H t id (maxRetries t) (first_failures H t w)
                (submitted w + List.length (images t)
                 + List.length (drained H t w))) as Hbound.
  fold (retries H t w) in Hbound.
  assert (HF0 : occ id (first_failures H t w) =
                occ id (rejected_of H t (images t) (submitted w))
                + occ id (rejected_of H t (drained H t w)
                            (submitted w + List.length (images t)))).
  { unfold first_failures. rewrite Hfresh, !occ_app, occ_nil. lia. }
  pose proof (rejected_of_occ H t id (images t) (submitted w)) as HrI.
  pose proof (rejected_of_occ H t id (drained H t w)
                (submitted w + List.length (images t))) as HrQ.
  assert (Hposts : occ id (posted evs) =
                   occ id (images t) + occ id (drained H t w)
                   + occ id (concat (map fst (fst (retries H t w))))).
  { rewrite Hposted, !occ_app. lia. }
  split; [rewrite occ_app; lia |]. split; [rewrite occ_app; nia |].
  split; [rewrite Hsucc; reflexivity |]. split; [rewrite Hrej; reflexivity |].
  intros Hquiet.
  assert (Hsucc' : succeeded evs =
            succeeded (item_events H t (images t) (submitted w))
            ++ succeeded (item_events H t (drained H t w)
                            (submitted w + List.length (images t)))
            ++ succeeded (plan_events H t (fst (retries H t w)))).
  { rewrite <- succeeded_not_report, Htrace, !succeeded_app, Hss, app_nil_r.
    reflexivity. }
  assert (Hrej' : rejected evs =
            rejected (item_events H t (images t) (submitted w))
            ++ rejected (item_events H t (drained H t w)
                           (submitted w + List.length (images t)))
            ++ rejected (plan_events H t (fst (retries H t w)))).
  { rewrite <- rejected_not_report, Htrace, !rejected_app, Hsr, app_nil_r.
    reflexivity. }
  rewrite Hsucc', Hrej', Hposts, !times_app, occ_app.
  destruct (item_events_callbacks H t id (images t) cs cf Hs Hf Hquiet
              (submitted w)) as [HsA HrA].
  destruct (item_events_callbacks H t id (drained H t w) cs cf Hs Hf Hquiet
              (submitted w + List.length (images t))) as [HsB HrB].
  destruct (retry_plan_callbacks H t id cs cf Hs Hf Hquiet (maxRetries t)
              (first_failures H t w)
              (submitted w + List.length (images t)
               + List.length (drained H t w))) as [HsC HrC].
  fold (retries H t w) in HsC, HrC.
  split; lia.
Qed.

Lemma callbacks_per_item_witness :
  0 < batchSize (task_of [img "a"; img "b"] 10 2) /\
  isRunning running = true /\
  failedImages running = [] /\
  onSuccess (task_of [img "a"; img "b"] 10 2) = Some 1 /\
  onFailure (task_of [img "a"; img "b"] 10 2) = Some 2 /\
  (forall (d : Json) (i : string) (k : nat),
      thrown_by_onSuccess host_down 1 d i k = None) /\
  exists fuel0 : nat,
    forall fuel : nat,
      fuel0 <= fuel ->
      exists (w' : World) (evs : list Event),
        uploadTask host_down fuel (Some (task_of [img "a"; img "b"] 10 2))
                   running = Some (w', evs) /\
        posted evs =
          [img "a"; img "b"]
          ++ drained host_down (task_of [img "a"; img "b"] 10 2) running
          ++ concat (map fst (fst (retries host_down
                                     (task_of [img "a"; img "b"] 10 2)
                                     running))) /\
        forall id : string,
          let n := occ id ([img "a"; img "b"]
                           ++ drained host_down
                                (task_of [img "a"; img "b"] 10 2) running) in
          n <= occ id (posted evs) /\
          occ id (posted evs) <= (1 + 2) * n /\
          times id (succeeded evs) =
            occ id (accepted_of host_down (task_of [img "a"; img "b"] 10 2)
                                (posted evs) (submitted running)) /\
          times id (rejected evs) =
            occ id (rejected_of host_down (task_of [img "a"; img "b"] 10 2)
                                (posted evs) (submitted running)) /\
          times id (succeeded evs) + times id (rejected evs)
            = occ id (posted evs) /\
          times id (succeeded evs) <= n.
Proof.
  assert (Hquiet : forall (d : Json) (i : string) (k : nat),
             thrown_by_onSuccess host_down 1 d i k = None)
    by (intros d i k; reflexivity).
  split; [simpl; lia |]. split; [reflexivity |]. split; [reflexivity |].
  split; [reflexivity |]. split; [reflexivity |]. split; [exact Hquiet |].
  destruct (callbacks_per_item host_down (task_of [img "a"; img "b"] 10 2)
              running 1 2) as [fuel0 Hrun];
    [simpl; lia | reflexivity | reflexivity | reflexivity | reflexivity |].
  exists fuel0. intros fuel Hfuel.
  destruct (Hrun fuel Hfuel) as (w' & evs & Hdone & Hposted & Hid).
  exists w', evs. split; [exact Hdone |]. split; [exact Hposted |].
  intros id. destruct (Hid id) as (H1 & H2 & H3 & H4 & H5).
  destruct (H5 Hquiet) as [H6 H7]. repeat split; assumption.
Defined.

(** C7, at the failing input.  The task is started with image [a];
    a request with [b] arrives during the first wait and a request with
    [c] during the wait of the drain loop.  [b] is drained; [c] is pushed
    on the fresh queue, is still there when the drain block is left, and
    the run ends with an empty queue without ever having submitted [c] or
    called a callback for it. *)
Theorem late_arrival_lost :
  exists (w1 w2 w' : World) (e1 e2 evs : list Event),
    batchLoop host_busy 9 Primary (task_of [img "a"] 10 3) [img "a"] 0 running
      = Some (w1, e1) /\
    queuedImages w1 = [img "b"] /\
    drainQueue host_busy 9 (task_of [img "a"] 10 3) w1 = Some (w2, e2) /\
    posted e2 = [img "b"] /\
    queuedImages w2 = [img "c"] /\
    uploadTask host_busy 9 (Some (task_of [img "a"] 10 3)) running
      = Some (w', evs) /\
    posted evs = [img "a"; img "b"] /\
    succeeded evs = ["a"; "b"] /\
    rejected evs = [] /\
    queuedImages w' = [].
Proof.
  do 6 eexists. vm_compute. repeat split.
Qed.

(** C8, as stated, fails: on Android a run completes without a call of
    [onServiceEnd], although the callback was supplied. *)
Lemma signalled_once_fails :
  ~ signalled_once
      (trace_of (uploadTask host_ok 5 (Some (task_of [img "a"] 10 1)) running)).
Proof.
  unfold signalled_once. vm_compute. discriminate.
Qed.

(** C8, amended.  For every run that completes all its phases, both
    arrays are empty and the service is stopped at the end; the trace
    ends with the stop of the background service, followed by one call
    of [onServiceEnd] when the platform is iOS and the callback was
    supplied, and by nothing otherwise; [onServiceEnd] is called nowhere
    else. *)
Theorem completed_run_ends (H : Host) (t : TaskData) (fuel : nat) (w w' : World)
    (evs : list Event) :
  uploadTask H fuel (Some t) w = Some (w', evs) ->
  queuedImages w' = [] /\
  failedImages w' = [] /\
  isRunning w' = false /\
  exists before : list Event,
    evs = before
          ++ EvBackgroundStop
             :: (if String.eqb (platformOS H) "ios"
                 then call (onServiceEnd t) EvServiceEnd else []) /\
    service_ends before = [] /\
    ~ In EvBackgroundStop before /\
    service_ends evs =
      if String.eqb (platformOS H) "ios"
      then match onServiceEnd t with Some cb => [cb] | None => [] end
      else [].
Proof.
  intros Hrun.
  destruct (uploadTask_forall H t (fun ev => is_phase_event ev = true)
              (promise_events_items H t)
              (fun _ _ _ _ _ _ _ _ => eq_refl) fuel w w' evs Hrun)
    as (before & w3 & Hevs & Hw' & Hphase).
  subst w'. repeat split.
  exists before. destruct (phase_events_no_end before Hphase) as [Hends Hstop].
  split; [exact Hevs |]. split; [exact Hends |]. split; [exact Hstop |].
  rewrite Hevs, service_ends_app, Hends. simpl.
  destruct (String.eqb (platformOS H) "ios"); [| reflexivity].
  destruct (onServiceEnd t); reflexivity.
Qed.

Lemma completed_run_ends_witness :
  uploadTask host_down 5 (Some (task_of [img "a"] 10 1)) running
    = Some (idle_after 2 2,
            trace_of (uploadTask host_down 5 (Some (task_of [img "a"] 10 1))
                                 running)) /\
  queuedImages (idle_after 2 2) = [] /\
  failedImages (idle_after 2 2) = [] /\
  isRunning (idle_after 2 2) = false /\
  exists before : list Event,
    trace_of (uploadTask host_down 5 (Some (task_of [img "a"] 10 1)) running)
    = before
      ++ EvBackgroundStop
         :: (if String.eqb (platformOS host_down) "ios"
             then call (onServiceEnd (task_of [img "a"] 10 1)) EvServiceEnd
             else []) /\
    service_ends before = [] /\
    ~ In EvBackgroundStop before /\
    service_ends
      (trace_of (uploadTask host_down 5 (Some (task_of [img "a"] 10 1))
                            running)) =
      if String.eqb (platformOS host_down) "ios"
      then match onServiceEnd (task_of [img "a"] 10 1) with
           | Some cb => [cb]
           | None => []
           end
      else [].
Proof.
  split; [vm_compute; reflexivity |].
  apply (completed_run_ends host_down (task_of [img "a"] 10 1) 5 running).
  vm_compute. reflexivity.
Defined.






(** ** Further properties of the module *)

(** *** Edge cases of a run *)

Lemma batchLoop_zero_batch (H : Host) (ph : Phase) (t : TaskData)
    (xs : list Image) :
  batchSize t = 0 ->
  forall (fuel i : nat) (w : World),
    i < List.length xs ->
    batchLoop H fuel ph t xs i w = None.
Proof.
  intros Hzero. induction fuel as [| fuel IH]; intros i w Hi; [reflexivity |].
  simpl. destruct (Nat.ltb_spec i (List.length xs)) as [_ | Hge]; [| lia].
  destruct (uploadPromises H ph t (submitted w)
                (slice xs i (i + batchSize t)) w)
    as [[w1 e1] result].
  rewrite IH; [reflexivity |]. rewrite Hzero. lia.
Qed.

(** X1.  With [batchSize = 0] and at least one image the first loop of
    [uploadTask] never advances: the task does not end, whatever the
    world and however long it runs, so the service is never stopped. *)
Theorem zero_batch_never_ends (H : Host) (t : TaskData) :
  batchSize t = 0 ->
  images t <> [] ->
  forall (fuel : nat) (w : World), uploadTask H fuel (Some t) w = None.
Proof.
  intros Hzero Hsome fuel w. unfold uploadTask.
  rewrite (batchLoop_zero_batch H Primary t (images t) Hzero); [reflexivity |].
  destruct (images t); [contradiction | simpl; lia].
Qed.

Lemma zero_batch_never_ends_witness :
  batchSize (task_of [img "a"] 0 3) = 0 /\
  images (task_of [img "a"] 0 3) <> [] /\
  forall (fuel : nat) (w : World),
    uploadTask host_ok fuel (Some (task_of [img "a"] 0 3)) w = None.
Proof.
  split; [reflexivity |]. split; [discriminate |].
  apply (zero_batch_never_ends host_ok (task_of [img "a"] 0 3));
    [reflexivity | discriminate].
Defined.

(** X2.  A task with no image, started when nothing is queued and
    nothing has failed, ends at once for every batch size, zero
    included: it submits nothing, reports no batch, and only stops the
    service (calling [onServiceEnd] on iOS). *)
Theorem empty_run (H : Host) (t : TaskData) (fuel : nat) (w : World) :
  images t = [] ->
  queuedImages w = [] ->
  failedImages w = [] ->
  0 < fuel ->
  exists w' : World,
    uploadTask H fuel (Some t) w =
      Some (w',
            EvBackgroundStop
            :: (if String.eqb (platformOS H) "ios"
                then call (onServiceEnd t) EvServiceEnd else [])) /\
    isRunning w' = false /\
    queuedImages w' = [] /\
    failedImages w' = [] /\
    submitted w' = submitted w /\
    suspended w' = suspended w.
Proof.
  intros Hnone Hq Hf Hfuel. destruct fuel as [| fuel]; [lia |].
  unfold uploadTask. rewrite Hnone. cbn [batchLoop List.length Nat.ltb Nat.leb].
  unfold drainQueue. rewrite Hq. cbn [List.length Nat.ltb Nat.leb].
  unfold retryFailed. rewrite Hf. cbn [List.length Nat.ltb Nat.leb].
  unfold stopService. eexists. split; [reflexivity |]. repeat split.
Qed.

Lemma empty_run_witness :
  images (task_of [] 0 3) = [] /\
  queuedImages running = [] /\
  failedImages running = [] /\
  0 < 1 /\
  exists w' : World,
    uploadTask host_down 1 (Some (task_of [] 0 3)) running =
      Some (w',
            EvBackgroundStop
            :: (if String.eqb (platformOS host_down) "ios"
                then call (onServiceEnd (task_of [] 0 3)) EvServiceEnd
                else [])) /\
    isRunning w' = false /\
    queuedImages w' = [] /\
    failedImages w' = [] /\
    submitted w' = submitted running /\
    suspended w' = suspended running.
Proof.
  repeat (split; [reflexivity || lia |]).
  apply (empty_run host_down (task_of [] 0 3) 1 running);
    reflexivity || lia.
Defined.

(** X3.  The life of the service.  A request made while no run is
    active queues nothing: it starts the service, calls [onServiceStart]
    on iOS and hands the task the request's images, url, axios instance,
    callbacks and options, with 10, 3 and [true] for an omitted batch
    size, retry limit and compression flag.  When the batch size of the
    task is positive the task ends, leaving the service stopped and both
    arrays empty, so that the next request starts a task of its own
    instead of being queued. *)
Theorem run_then_idle (H : Host) (rq : UploadRequest) (w : World) :
  isRunning w = false ->
  exists t : TaskData,
    startBackgroundUpload H rq w =
      (set_running true w,
       EvBackgroundStart
       :: (if String.eqb (platformOS H) "ios"
           then call (rq_onServiceStart rq) EvServiceStart else []),
       Started t) /\
    images t = uo_images (uploadOptions rq) /\
    batchSize t =
      match uo_batchSize (uploadOptions rq) with Some b => b | None => 10 end /\
    onSuccess t = rq_onSuccess rq /\
    onFailure t = rq_onFailure rq /\
    url t = uo_url (uploadOptions rq) /\
    maxRetries t =
      match uo_maxRetries (uploadOptions rq) with Some m => m | None => 3 end /\
    imageCompression t =
      match uo_imageCompression (uploadOptions rq) with
      | Some c => c
      | None => true
      end /\
    axiosInstance t = uo_axiosInstance (uploadOptions rq) /\
    onBatchComplete t = rq_onBatchComplete rq /\
    onServiceEnd t = rq_onServiceEnd rq /\
    (0 < batchSize t ->
     exists fuel0 : nat,
       forall fuel : nat,
         fuel0 <= fuel ->
         exists (w' : World) (evs : list Event),
           uploadTask H fuel (Some t) (set_running true w) = Some (w', evs) /\
           isRunning w' = false /\
           queuedImages w' = [] /\
           failedImages w' = [] /\
           forall rq2 : UploadRequest,
             exists t2 : TaskData,
               startBackgroundUpload H rq2 w' =
                 (set_running true w',
                  EvBackgroundStart
                  :: (if String.eqb (platformOS H) "ios"
                      then call (rq_onServiceStart rq2) EvServiceStart
                      else []),
                  Started t2) /\
               images t2 = uo_images (uploadOptions rq2)).
Proof.
  intros Hidle. unfold startBackgroundUpload. rewrite Hidle.
  eexists. split; [reflexivity |].
  cbn [images batchSize onSuccess onFailure url maxRetries imageCompression
       axiosInstance onBatchComplete onServiceEnd].
  repeat (split; [reflexivity |]).
  intros Hbs.
  match goal with
  | |- context [uploadTask H _ (Some ?t) ?w0] =>
      destruct (uploadTask_runs H t Hbs w0 eq_refl) as [fuel0 Hends]
  end.
  exists fuel0. intros fuel Hfuel.
  destruct (Hends fuel Hfuel) as (w' & evs & Hrun).
  exists w', evs. split; [exact Hrun |].
  apply uploadTask_trace in Hrun; [| exact Hbs | reflexivity].
  destruct Hrun as (_ & Hq & Hf & Hr). repeat (split; [assumption |]).
  intros rq2. rewrite Hr. eexists. split; reflexivity.
Qed.

Lemma run_then_idle_witness :
  isRunning idle = false /\
  exists t : TaskData,
    startBackgroundUpload host_ok (request_of [img "a"]) idle =
      (running, [EvBackgroundStart], Started t) /\
    images t = [img "a"] /\
    batchSize t = 1 /\
    onSuccess t = Some 91 /\
    onFailure t = Some 92 /\
    url t = "https://other" /\
    maxRetries t = 7 /\
    imageCompression t = false /\
    axiosInstance t = 9 /\
    onBatchComplete t = Some 93 /\
    onServiceEnd t = Some 95 /\
    0 < batchSize t /\
    exists fuel0 : nat,
      forall fuel : nat,
        fuel0 <= fuel ->
        exists (w' : World) (evs : list Event),
          uploadTask host_ok fuel (Some t) running = Some (w', evs) /\
          isRunning w' = false /\
          queuedImages w' = [] /\
          failedImages w' = [] /\
          forall rq2 : UploadRequest,
            exists t2 : TaskData,
              startBackgroundUpload host_ok rq2 w' =
                (set_running true w',
                 EvBackgroundStart
                 :: (if String.eqb (platformOS host_ok) "ios"
                     then call (rq_onServiceStart rq2) EvServiceStart
                     else []),
                 Started t2) /\
              images t2 = uo_images (uploadOptions rq2).
Proof.
  split; [reflexivity |].
  destruct (run_then_idle host_ok (request_of [img "a"]) idle eq_refl)
    as (t & Hstart & Hi & Hb & Hs & Hf & Hu & Hm & Hc & Ha & Hbc & He & Hrun).
  assert (Hbs : 0 < batchSize t) by (rewrite Hb; simpl; lia).
  exists t. repeat (split; [assumption |]). exact (Hrun Hbs).
Defined.

(** *** What is sent, and for which images *)

Lemma compressed_app (e1 e2 : list Event) :
  compressed (e1 ++ e2) = compressed e1 ++ compressed e2.
Proof.
  induction e1 as [| ev e1 IH]; simpl; [reflexivity |].
  destruct ev; simpl; rewrite IH; reflexivity.
Qed.

Lemma compressed_not_report (evs : list Event) :
  compressed (filter not_report evs) = compressed evs.
Proof.
  induction evs as [| ev evs IH]; simpl; [reflexivity |].
  destruct ev; simpl; rewrite ?IH; reflexivity.
Qed.


Section SubmissionFacts.

Variable H : Host.
Variable t : TaskData.

Lemma compressed_promise_events (x : Image) (k : nat) :
  compressed (promise_events H t x k) =
    if imageCompression t then [uri x] else [].
Proof.
  promise_shapes H t; reflexivity.
Qed.

Lemma compressed_item_events (xs : list Image) :
  forall k : nat,
    compressed (item_events H t xs k) =
      if imageCompression t then map uri xs else [].
Proof.
  induction xs as [| x xs IH]; intros k; simpl.
  - destruct (imageCompression t); reflexivity.
  - rewrite compressed_app, compressed_promise_events, IH.
    destruct (imageCompression t); reflexivity.
Qed.

Lemma compressed_plan_events (snapshots : list (list Image * nat)) :
  compressed (plan_events H t snapshots) =
    if imageCompression t then map uri (concat (map fst snapshots)) else [].
Proof.
  induction snapshots as [| [F k] rest IH]; simpl.
  - destruct (imageCompression t); reflexivity.
  - rewrite compressed_app, compressed_item_events, IH.
    destruct (imageCompression t); [rewrite map_app |]; reflexivity.
Qed.

(** The snapshots of the retry plan only hold images of the first
    failure set, and no more of them than the rounds allow. *)
Lemma retry_plan_incl :
  forall (rounds : nat) (F : list Image) (k : nat),
    incl (concat (map fst (fst (retry_plan H t rounds F k)))) F.
Proof.
  induction rounds as [| rounds IH]; intros F k; cbn [retry_plan].
  - simpl. apply incl_nil_l.
  - destruct F as [| f F]; [simpl; apply incl_nil_l |].
    specialize (IH (rejected_of H t (f :: F) k) (k + List.length (f :: F))).
    destruct (retry_plan H t rounds (rejected_of H t (f :: F) k)
                         (k + List.length (f :: F))) as [snaps final].
    cbn [fst map concat]. simpl fst in IH.
    apply incl_app; [apply incl_refl |].
    eapply incl_tran; [exact IH | apply rejected_of_incl].
Qed.

Lemma retry_plan_length :
  forall (rounds : nat) (F : list Image) (k : nat),
    List.length (concat (map fst (fst (retry_plan H t rounds F k))))
    <= rounds * List.length F.
Proof.
  induction rounds as [| rounds IH]; intros F k; cbn [retry_plan].
  - simpl. lia.
  - destruct F as [| f F]; [simpl; lia |].
    specialize (IH (rejected_of H t (f :: F) k) (k + List.length (f :: F))).
    destruct (retry_plan H t rounds (rejected_of H t (f :: F) k)
                         (k + List.length (f :: F))) as [snaps final].
    cbn [fst map concat]. simpl fst in IH. rewrite length_app.
    pose proof (rejected_of_length H t (f :: F) k). nia.
Qed.

End SubmissionFacts.

Lemma text_parts_extras (kvs : list (string * string)) :
  text_parts (map (fun kv => TextPart (fst kv) (snd kv)) kvs) = kvs.
Proof.
  induction kvs as [| [key value] rest IH]; simpl;
    [reflexivity | rewrite IH; reflexivity].
Qed.

Lemma file_parts_extras (kvs : list (string * string)) :
  file_parts (map (fun kv => TextPart (fst kv) (snd kv)) kvs) = [].
Proof.
  induction kvs as [| [key value] rest IH]; simpl; [reflexivity | exact IH].
Qed.

(** X4.  [uploadImage] hands exactly one form to the transport.  Its
    single file part carries the effective uri (the compressor's answer
    when compression is on and the compressor succeeds, the image's own
    uri otherwise), the image's type and file name, or "image/jpeg" and
    "photo.jpg" in place of an empty one; its other parts are the image's
    extras, all of them, in their order. *)
Theorem form_contents (H : Host) (image : Image) (target : string)
    (compression : bool) (inst : AxiosInstance) (k : nat) :
  exists form : FormData,
    forms (fst (uploadImage H image target compression inst k)) = [form] /\
    file_parts form =
      [(if compression
        then match compress H (uri image) k with
             | Some u => u
             | None => uri image
             end
        else uri image,
        if String.eqb (type image) "" then "image/jpeg" else type image,
        if String.eqb (fileName image) "" then "photo.jpg"
        else fileName image)] /\
    text_parts form = extras image /\
    List.length form = S (List.length (extras image)).
Proof.
  assert (Htext : forall (u : string),
             text_parts (formData image u) = extras image).
  { intros u. unfold formData. simpl. apply text_parts_extras. }
  assert (Hfile : forall (u : string),
             file_parts (formData image u) =
               [(u, str_or (type image) "image/jpeg",
                 str_or (fileName image) "photo.jpg")]).
  { intros u. unfold formData. simpl. rewrite file_parts_extras.
    reflexivity. }
  unfold uploadImage, compressImage.
  destruct compression; cbn [fst snd]; eexists;
    (split; [reflexivity |]); rewrite Hfile, Htext;
    (split; [reflexivity |]); (split; [reflexivity |]);
    unfold formData; simpl; rewrite length_map; reflexivity.
Qed.

(** X5.  In a completed run the compressor is called once for every
    submission, retries included, each time on the image's original uri,
    when compression is on; it is never called when compression is off. *)
Theorem compressor_calls (H : Host) (t : TaskData) (w : World) :
  0 < batchSize t ->
  isRunning w = true ->
  exists fuel0 : nat,
    forall fuel : nat,
      fuel0 <= fuel ->
      exists (w' : World) (evs : list Event),
        uploadTask H fuel (Some t) w = Some (w', evs) /\
        compressed evs =
          if imageCompression t then map uri (posted evs) else [].
Proof.
  intros Hbs Hrunning.
  destruct (uploadTask_runs H t Hbs w Hrunning) as [fuel0 Hends].
  exists fuel0. intros fuel Hfuel.
  destruct (Hends fuel Hfuel) as (w' & evs & Hrun).
  exists w', evs. split; [exact Hrun |].
  pose proof (uploadTask_posted H t fuel w w' evs Hbs Hrunning Hrun) as Hposted.
  destruct (uploadTask_trace H t Hbs fuel w w' evs Hrunning Hrun)
    as (Htrace & _).
  rewrite <- compressed_not_report, Htrace, !compressed_app.
  rewrite !compressed_item_events, compressed_plan_events, Hposted.
  assert (Hstop : compressed (snd (stopService H t w)) = []).
  { unfold stopService. simpl.
    destruct (String.eqb (platformOS H) "ios"); [| reflexivity].
    destruct (onServiceEnd t); reflexivity. }
  rewrite Hstop.
  destruct (imageCompression t); [| reflexivity].
  rewrite !map_app, app_nil_r. reflexivity.
Qed.

Lemma compressor_calls_witness :
  0 < batchSize (task_of [img "a"] 10 2) /\
  isRunning running = true /\
  exists fuel0 : nat,
    forall fuel : nat,
      fuel0 <= fuel ->
      exists (w' : World) (evs : list Event),
        uploadTask host_down fuel (Some (task_of [img "a"] 10 2)) running
          = Some (w', evs) /\
        compressed evs =
          if imageCompression (task_of [img "a"] 10 2)
          then map uri (posted evs) else [].
Proof.
  split; [simpl; lia |]. split; [reflexivity |].
  apply (compressor_calls host_down (task_of [img "a"] 10 2) running);
    [simpl; lia | reflexivity].
Defined.



(** X7.  When the transport accepts every submission and the success
    callback never throws, a run submits each of the task's images and
    each drained image exactly once and does not retry, whatever
    [maxRetries] is; it calls [onSuccess] exactly once for each of them
    and never calls [onFailure]. *)
Theorem all_accepted (H : Host) (t : TaskData) (w : World) (cs : Callback) :
  0 < batchSize t ->
  isRunning w = true ->
  failedImages w = [] ->
  onSuccess t = Some cs ->
  (forall (x : Image) (k : nat), accepted H t x k = true) ->
  (forall (d : Json) (i : string) (k : nat),
      thrown_by_onSuccess H cs d i k = None) ->
  exists fuel0 : nat,
    forall fuel : nat,
      fuel0 <= fuel ->
      exists (w' : World) (evs : list Event),
        uploadTask H fuel (Some t) w = Some (w', evs) /\
        List.length (posted evs) = List.length (images t ++ drained H t w) /\
        rejected evs = [] /\
        forall id : string,
          occ id (posted evs) = occ id (images t ++ drained H t w) /\
          times id (succeeded evs) = occ id (images t ++ drained H t w).
Proof.
  intros Hbs Hrunning Hfresh Hs Hacc Hquiet.
  assert (Hok : forall (x : Image) (k : nat), rejects H t x k = false).
  { intros x k.
    apply (rejects_when_quiet H t x k cs Hs (fun d => Hquiet d _ _) (Hacc x k)). }
  destruct (uploadTask_runs H t Hbs w Hrunning) as [fuel0 Hends].
  exists fuel0. intros fuel Hfuel.
  destruct (Hends fuel Hfuel) as (w' & evs & Hrun).
  exists w', evs. split; [exact Hrun |].
  pose proof (uploadTask_posted H t fuel w w' evs Hbs Hrunning Hrun) as Hposted.
  destruct (uploadTask_trace H t Hbs fuel w w' evs Hrunning Hrun)
    as (Htrace & _).
  assert (Hplan : fst (retries H t w) = []).
  { unfold retries, first_failures.
    rewrite Hfresh, !(rejected_of_none H t _ Hok). simpl.
    destruct (maxRetries t); reflexivity. }
  rewrite Hplan in Hposted, Htrace. simpl in Hposted.
  change (plan_events H t []) with (@nil Event) in Htrace.
  rewrite app_nil_r in Hposted.
  destruct (stopService_quiet H t w) as (_ & Hss & Hsr).
  destruct (item_events_when_accepted H t (images t) cs Hs Hok (submitted w))
    as [HsA HrA].
  destruct (item_events_when_accepted H t (drained H t w) cs Hs Hok
              (submitted w + List.length (images t))) as [HsB HrB].
  split; [rewrite Hposted; reflexivity |]. split.
  - rewrite <- rejected_not_report, Htrace, !rejected_app.
    rewrite HrA, HrB, Hsr. reflexivity.
  - intros id. split; [rewrite Hposted; reflexivity |].
    rewrite <- succeeded_not_report, Htrace, !succeeded_app.
    rewrite HsA, HsB, Hss. cbn [succeeded app].
    rewrite app_nil_r, <- map_app. reflexivity.
Qed.

Lemma all_accepted_witness :
  0 < batchSize (task_of [img "a"] 10 3) /\
  isRunning running = true /\
  failedImages running = [] /\
  onSuccess (task_of [img "a"] 10 3) = Some 1 /\
  (forall (x : Image) (k : nat),
      accepted host_busy (task_of [img "a"] 10 3) x k = true) /\
  (forall (d : Json) (i : string) (k : nat),
      thrown_by_onSuccess host_busy 1 d i k = None) /\
  exists fuel0 : nat,
    forall fuel : nat,
      fuel0 <= fuel ->
      exists (w' : World) (evs : list Event),
        uploadTask host_busy fuel (Some (task_of [img "a"] 10 3)) running
          = Some (w', evs) /\
        List.length (posted evs) =
          List.length (images (task_of [img "a"] 10 3)
                       ++ drained host_busy (task_of [img "a"] 10 3) running) /\
        rejected evs = [] /\
        forall id : string,
          occ id (posted evs) =
            occ id (images (task_of [img "a"] 10 3)
                    ++ drained host_busy (task_of [img "a"] 10 3) running) /\
          times id (succeeded evs) =
            occ id (images (task_of [img "a"] 10 3)
                    ++ drained host_busy (task_of [img "a"] 10 3) running).
Proof.
  assert (Hacc : forall (x : Image) (k : nat),
             accepted host_busy (task_of [img "a"] 10 3) x k = true)
    by (intros x k; reflexivity).
  assert (Hquiet : forall (d : Json) (i : string) (k : nat),
             thrown_by_onSuccess host_busy 1 d i k = None)
    by (intros d i k; reflexivity).
  split; [simpl; lia |]. split; [reflexivity |]. split; [reflexivity |].
  split; [reflexivity |]. split; [exact Hacc |]. split; [exact Hquiet |].
  apply (all_accepted host_busy (task_of [img "a"] 10 3) running 1);
    [simpl; lia | reflexivity | reflexivity | reflexivity | exact Hacc
    | exact Hquiet].
Defined.

(** X8.  With [maxRetries = 0] nothing is retried: a run submits each
    of the task's images and each drained image exactly once, whatever
    the transport answers. *)
Theorem no_retry_without_budget (H : Host) (t : TaskData) (w : World) :
  0 < batchSize t ->
  isRunning w = true ->
  maxRetries t = 0 ->
  exists fuel0 : nat,
    forall fuel : nat,
      fuel0 <= fuel ->
      exists (w' : World) (evs : list Event),
        uploadTask H fuel (Some t) w = Some (w', evs) /\
        posted evs = images t ++ drained H t w.
Proof.
  intros Hbs Hrunning Hzero.
  destruct (uploadTask_runs H t Hbs w Hrunning) as [fuel0 Hends].
  exists fuel0. intros fuel Hfuel.
  destruct (Hends fuel Hfuel) as (w' & evs & Hrun).
  exists w', evs. split; [exact Hrun |].
  rewrite (uploadTask_posted H t fuel w w' evs Hbs Hrunning Hrun).
  unfold retries. rewrite Hzero. simpl. rewrite app_nil_r. reflexivity.
Qed.

Lemma no_retry_without_budget_witness :
  0 < batchSize (task_of [img "a"] 10 0) /\
  isRunning running = true /\
  maxRetries (task_of [img "a"] 10 0) = 0 /\
  exists fuel0 : nat,
    forall fuel : nat,
      fuel0 <= fuel ->
      exists (w' : World) (evs : list Event),
        uploadTask host_down fuel (Some (task_of [img "a"] 10 0)) running
          = Some (w', evs) /\
        posted evs =
          images (task_of [img "a"] 10 0)
          ++ drained host_down (task_of [img "a"] 10 0) running.
Proof.
  split; [simpl; lia |]. split; [reflexivity |]. split; [reflexivity |].
  apply (no_retry_without_budget host_down (task_of [img "a"] 10 0) running);
    [simpl; lia | reflexivity | reflexivity].
Defined.

(** X9.  Starting from an empty failure set, a run never submits
    anything but the task's images and the images found on the queue by
    the drain block.  Every identifier is submitted at least as many
    times as it occurs among them, so every image at least once, and at
    most [1 + maxRetries] times as often; the same bounds hold for the
    number of submissions as a whole. *)
Theorem bounded_work (H : Host) (t : TaskData) (w : World) :
  0 < batchSize t ->
  isRunning w = true ->
  failedImages w = [] ->
  exists fuel0 : nat,
    forall fuel : nat,
      fuel0 <= fuel ->
      exists (w' : World) (evs : list Event),
        uploadTask H fuel (Some t) w = Some (w', evs) /\
        incl (posted evs) (images t ++ drained H t w) /\
        (forall id : string,
            occ id (images t ++ drained H t w) <= occ id (posted evs) /\
            occ id (posted evs)
              <= (1 + maxRetries t) * occ id (images t ++ drained H t w)) /\
        List.length (images t ++ drained H t w) <= List.length (posted evs) /\
        List.length (posted evs)
          <= (1 + maxRetries t) * List.length (images t ++ drained H t w).
Proof.
  intros Hbs Hrunning Hfresh.
  destruct (uploadTask_runs H t Hbs w Hrunning) as [fuel0 Hends].
  exists fuel0. intros fuel Hfuel.
  destruct (Hends fuel Hfuel) as (w' & evs & Hrun).
  exists w', evs. split; [exact Hrun |].
  rewrite (uploadTask_posted H t fuel w w' evs Hbs Hrunning Hrun).
  assert (Hfirst : incl (first_failures H t w) (images t ++ drained H t w)).
  { unfold first_failures. rewrite Hfresh. simpl.
    apply incl_app.
    - apply incl_appl. apply rejected_of_incl.
    - apply incl_appr. apply rejected_of_incl. }
  assert (Hlen : List.length (first_failures H t w)
                 <= List.length (images t ++ drained H t w)).
  { unfold first_failures. rewrite Hfresh. simpl. rewrite !length_app.
    pose proof (rejected_of_length H t (images t) (submitted w)).
    pose proof (rejected_of_length H t (drained H t w)
                  (submitted w + List.length (images t))). lia. }
  assert (Hocc : forall id : string,
             occ id (first_failures H t w)
             <= occ id (images t ++ drained H t w)).
  { intros id. unfold first_failures. rewrite Hfresh, !occ_app, occ_nil.
    pose proof (rejected_of_occ H t id (images t) (submitted w)).
    pose proof (rejected_of_occ H t id (drained H t w)
                  (submitted w + List.length (images t))). lia. }
  pose proof (retry_plan_incl H t (maxRetries t) (first_failures H t w)
                (submitted w + List.length (images t)
                 + List.length (drained H t w))) as Hincl.
  pose proof (retry_plan_length H t (maxRetries t) (first_failures H t w)
                (submitted w + List.length (images t)
                 + List.length (drained H t w))) as Hbound.
  fold (retries H t w) in Hincl, Hbound.
  rewrite app_assoc. split; [| split; [| split]].
  - apply incl_app; [apply incl_refl |].
    eapply incl_tran; [exact Hincl | exact Hfirst].
  - intros id.
    pose proof (retry_plan_posts H t id (maxRetries t) (first_failures H t w)
                  (submitted w + List.length (images t)
                   + List.length (drained H t w))) as Hposts.
    fold (retries H t w) in Hposts. specialize (Hocc id).
    rewrite (occ_app id (images t ++ drained H t w)). split; [lia | nia].
  - rewrite (length_app (images t ++ drained H t w)). lia.
  - rewrite (length_app (images t ++ drained H t w)). nia.
Qed.

Lemma bounded_work_witness :
  0 < batchSize (task_of [img "a"] 10 2) /\
  isRunning running = true /\
  failedImages running = [] /\
  exists fuel0 : nat,
    forall fuel : nat,
      fuel0 <= fuel ->
      exists (w' : World) (evs : list Event),
        uploadTask host_busy fuel (Some (task_of [img "a"] 10 2)) running
          = Some (w', evs) /\
        incl (posted evs)
             (images (task_of [img "a"] 10 2)
              ++ drained host_busy (task_of [img "a"] 10 2) running) /\
        (forall id : string,
            occ id (images (task_of [img "a"] 10 2)
                    ++ drained host_busy (task_of [img "a"] 10 2) running)
              <= occ id (posted evs) /\
            occ id (posted evs)
              <= (1 + maxRetries (task_of [img "a"] 10 2))
                 * occ id (images (task_of [img "a"] 10 2)
                           ++ drained host_busy (task_of [img "a"] 10 2)
                                      running)) /\
        List.length (images (task_of [img "a"] 10 2)
                     ++ drained host_busy (task_of [img "a"] 10 2) running)
          <= List.length (posted evs) /\
        List.length (posted evs)
          <= (1 + maxRetries (task_of [img "a"] 10 2))
             * List.length (images (task_of [img "a"] 10 2)
                            ++ drained host_busy (task_of [img "a"] 10 2)
                                       running).
Proof.
  split; [simpl; lia |]. split; [reflexivity |]. split; [reflexivity |].
  apply (bounded_work host_busy (task_of [img "a"] 10 2) running);
    [simpl; lia | reflexivity | reflexivity].
Defined.

(** X10.  [getError] never reports a null body: whenever it returns
    an [{error, status}] record the error had a response and the record's
    [error] is not null (a missing body has become [{}]); whenever it
    returns an error, it is the one it was given, and that one had no
    response. *)
Theorem getError_never_null (error : AxiosError) :
  match getError error with
  | inl e => response error <> None /\ er_error e <> JNull
  | inr e => e = error /\ response error = None
  end.
Proof.
  unfold getError. destruct (response error) as [r |].
  - split; [discriminate |]. simpl. destruct (resp_data r); discriminate.
  - split; reflexivity.
Qed.



(** *** Two tasks whose traces differ by a filter *)

Section Simulation.

Variable H : Host.
Variables t t' : TaskData.
Variable keep : Event -> bool.

Hypothesis same_images : images t' = images t.
Hypothesis same_batch : batchSize t' = batchSize t.
Hypothesis same_retries : maxRetries t' = maxRetries t.
Hypothesis sim_promise :
  forall (ph : Phase) (m : nat) (x : Image) (w : World),
    uploadPromise H ph t' m x w =
    (fst (fst (uploadPromise H ph t m x w)),
     filter keep (snd (fst (uploadPromise H ph t m x w))),
     snd (uploadPromise H ph t m x w)).
Hypothesis sim_report :
  forall (result : list Settled) (n : nat),
    call (onBatchComplete t') (fun f => EvBatchComplete f result n) =
    filter keep (call (onBatchComplete t)
                      (fun f => EvBatchComplete f result n)).
Hypothesis sim_stop :
  forall w : World,
    snd (stopService H t' w) = filter keep (snd (stopService H t w)).

Lemma sim_promises (ph : Phase) (m : nat) (xs : list Image) :
  forall w : World,
    uploadPromises H ph t' m xs w =
    (fst (fst (uploadPromises H ph t m xs w)),
     filter keep (snd (fst (uploadPromises H ph t m xs w))),
     snd (uploadPromises H ph t m xs w)).
Proof.
  induction xs as [| x xs IH]; intros w; simpl; [reflexivity |].
  rewrite sim_promise.
  destruct (uploadPromise H ph t m x w) as [[w1 e1] s1]. cbn [fst snd].
  rewrite IH.
  destruct (uploadPromises H ph t m xs w1) as [[w2 e2] ss]. cbn [fst snd].
  rewrite filter_app. reflexivity.
Qed.

Lemma sim_batchLoop (ph : Phase) (xs : list Image) :
  forall (fuel i : nat) (w : World),
    batchLoop H fuel ph t' xs i w =
    keep_events keep (batchLoop H fuel ph t xs i w).
Proof.
  induction fuel as [| fuel IH]; intros i w; simpl; [reflexivity |].
  destruct (i <? List.length xs); [| reflexivity].
  rewrite same_batch, sim_promises.
  destruct (uploadPromises H ph t (submitted w)
                (slice xs i (i + batchSize t)) w)
    as [[w1 e1] result]. cbn [fst snd].
  rewrite IH, sim_report.
  destruct (batchLoop H fuel ph t xs (i + batchSize t) (awaitAllSettled H w1))
    as [[w3 e3] |]; simpl; [| reflexivity].
  rewrite !filter_app. reflexivity.
Qed.

Lemma sim_retryLoop :
  forall (fuel rc : nat) (w : World),
    retryLoop H fuel t' rc w =
    match retryLoop H fuel t rc w with
    | Some (w', evs, n) => Some (w', filter keep evs, n)
    | None => None
    end.
Proof.
  induction fuel as [| fuel IH]; intros rc w; simpl; [reflexivity |].
  rewrite same_retries.
  destruct ((0 <? List.length (failedImages w)) && (rc <? maxRetries t));
    [| reflexivity].
  rewrite sim_batchLoop.
  destruct (batchLoop H fuel (Retry rc) t (failedImages w) 0 (set_failed [] w))
    as [[w2 e2] |]; simpl; [| reflexivity].
  rewrite IH.
  destruct (retryLoop H fuel t (S rc) w2) as [[[w3 e3] n] |];
    [| reflexivity].
  rewrite filter_app. reflexivity.
Qed.

Lemma sim_uploadTask (fuel : nat) (w : World) :
  uploadTask H fuel (Some t') w =
  keep_events keep (uploadTask H fuel (Some t) w).
Proof.
  unfold uploadTask. rewrite same_images, sim_batchLoop.
  destruct (batchLoop H fuel Primary t (images t) 0 w) as [[w1 e1] |];
    simpl; [| reflexivity].
  assert (Hdrain : drainQueue H fuel t' w1 =
                   keep_events keep (drainQueue H fuel t w1)).
  { unfold drainQueue. destruct (0 <? List.length (queuedImages w1));
      [apply sim_batchLoop | reflexivity]. }
  rewrite Hdrain.
  destruct (drainQueue H fuel t w1) as [[w2 e2] |]; simpl; [| reflexivity].
  assert (Hretry : retryFailed H fuel t' w2 =
                   keep_events keep (retryFailed H fuel t w2)).
  { unfold retryFailed. destruct (0 <? List.length (failedImages w2));
      [| reflexivity].
    rewrite sim_retryLoop.
    destruct (retryLoop H fuel t 0 w2) as [[[w3 e3] n] |]; reflexivity. }
  rewrite Hretry.
  destruct (retryFailed H fuel t w2) as [[w3 e3] |]; simpl; [| reflexivity].
  pose proof (sim_stop w3) as Hstop. unfold stopService in Hstop |- *.
  cbn [fst snd] in Hstop |- *. rewrite Hstop, !filter_app. reflexivity.
Qed.

End Simulation.

(** X12.  A compressor that always throws is as good as no
    compression.  With such a compressor, the task run with the
    compression flag off ends exactly when the task run as it is does, in
    the same world, and its trace is the other's with the compressor
    calls removed: the same forms are submitted, the same callbacks are
    called with the same arguments, the same batches are reported. *)
Theorem failing_compressor_changes_nothing (H : Host) (t : TaskData)
    (fuel : nat) (w : World) :
  (forall (u : string) (k : nat), compress H u k = None) ->
  uploadTask H fuel (Some (without_compression t)) w =
  keep_events (fun ev => negb (is_compress ev))
              (uploadTask H fuel (Some t) w).
Proof.
  intros Hthrows. apply sim_uploadTask; try reflexivity.
  - intros ph m x w0. unfold uploadPromise, caught, thrown, uploadImage,
      compressImage.
    cbn [url imageCompression axiosInstance onSuccess onFailure
         without_compression].
    destruct (imageCompression t); rewrite ?Hthrows; cbn [fst snd];
      match goal with
      | |- context [post H ?a ?b ?c ?d] => destruct (post H a b c d)
      end;
      cbn [fst snd];
      try match goal with
          | |- context [onSuccess t] => destruct (onSuccess t)
          end;
      try match goal with
          | |- context [thrown_by_onSuccess H ?g ?d ?i ?n] =>
              destruct (thrown_by_onSuccess H g d i n)
          end;
      try match goal with
          | |- context [onFailure t] => destruct (onFailure t)
          end;
      reflexivity.
  - intros result n. cbn [onBatchComplete without_compression].
    destruct (onBatchComplete t); reflexivity.
  - intros w0. unfold stopService. cbn [snd onServiceEnd without_compression].
    destruct (String.eqb (platformOS H) "ios"); [| reflexivity].
    destruct (onServiceEnd t); reflexivity.
Qed.

Lemma failing_compressor_changes_nothing_witness :
  (forall (u : string) (k : nat), compress host_down u k = None) /\
  uploadTask host_down 5 (Some (without_compression (task_of [img "a"] 10 1)))
             running =
  keep_events (fun ev => negb (is_compress ev))
              (uploadTask host_down 5 (Some (task_of [img "a"] 10 1)) running).
Proof.
  assert (Hthrows : forall (u : string) (k : nat), compress host_down u k = None)
    by (intros u k; reflexivity).
  split; [exact Hthrows |].
  apply (failing_compressor_changes_nothing host_down
           (task_of [img "a"] 10 1) 5 running Hthrows).
Defined.

(** *** What the reports say about retries *)

Section RangeFacts.

Variable H : Host.
Variable t : TaskData.




End RangeFacts.




(** *** Other callers during a pass *)

Section Undisturbed.

Variable H : Host.
Variable t : TaskData.

Lemma uploadPromise_queue (ph : Phase) (m : nat) (x : Image) (w : World)
    (q : list Image) :
  uploadPromise (undisturbed H) ph t m x (set_queued q w) =
  (set_queued q (fst (fst (uploadPromise H ph t m x w))),
   snd (fst (uploadPromise H ph t m x w)),
   snd (uploadPromise H ph t m x w)).
Proof.
  unfold uploadPromise, caught, thrown, uploadImage, compressImage,
    undisturbed.
  cbn [compress post now thrown_by_onSuccess submitted set_queued
       next_submission].
  destruct (imageCompression t); cbn [fst snd];
    match goal with
    | |- context [post H ?a ?b ?c ?d] => destruct (post H a b c d)
    end;
    try match goal with
        | |- context [onSuccess t] => destruct (onSuccess t)
        end;
    try match goal with
        | |- context [thrown_by_onSuccess H ?g ?d ?i ?n] =>
            destruct (thrown_by_onSuccess H g d i n)
        end;
    reflexivity.
Qed.

Lemma uploadPromises_queue (ph : Phase) (m : nat) (xs : list Image)
    (q : list Image) :
  forall w : World,
    uploadPromises (undisturbed H) ph t m xs (set_queued q w) =
    (set_queued q (fst (fst (uploadPromises H ph t m xs w))),
     snd (fst (uploadPromises H ph t m xs w)),
     snd (uploadPromises H ph t m xs w)).
Proof.
  induction xs as [| x xs IH]; intros w; simpl; [reflexivity |].
  rewrite uploadPromise_queue.
  destruct (uploadPromise H ph t m x w) as [[w1 e1] s1]. cbn [fst snd].
  rewrite IH.
  destruct (uploadPromises H ph t m xs w1) as [[w2 e2] ss]. reflexivity.
Qed.

Lemma batchLoop_queue (ph : Phase) (xs : list Image) (q : list Image) :
  forall (fuel i : nat) (w : World),
    isRunning w = true ->
    batchLoop (undisturbed H) fuel ph t xs i (set_queued q w) =
    match batchLoop H fuel ph t xs i w with
    | Some (w', evs) => Some (set_queued q w', evs)
    | None => None
    end.
Proof.
  induction fuel as [| fuel IH]; intros i w Hrunning; simpl; [reflexivity |].
  destruct (i <? List.length xs); [| reflexivity].
  rewrite uploadPromises_queue.
  pose proof (uploadPromises_world H ph t (submitted w)
                  (slice xs i (i + batchSize t)) w)
    as Hw.
  destruct (uploadPromises H ph t (submitted w)
                (slice xs i (i + batchSize t)) w)
    as [[w1 e1] result]. cbn [fst snd] in Hw |- *.
  destruct Hw as (_ & _ & Hr1 & _).
  assert (Hrun1 : isRunning w1 = true) by congruence.
  assert (Hnext : awaitAllSettled (undisturbed H) (set_queued q w1) =
                  set_queued q (awaitAllSettled H w1)).
  { unfold awaitAllSettled. rewrite (serve_requests_running H _ w1 Hrun1).
    reflexivity. }
  rewrite Hnext, IH.
  - destruct (batchLoop H fuel ph t xs (i + batchSize t)
                        (awaitAllSettled H w1)) as [[w3 e3] |]; reflexivity.
  - destruct (awaitAllSettled_running H w1 Hrun1) as (_ & _ & Hr2 & _).
    exact Hr2.
Qed.

End Undisturbed.

(** X14.  Requests of other callers do not disturb a pass.  While the
    service is running, a batch loop ends exactly when it would if nobody
    else called, with the same trace (submissions, callbacks and reports)
    and the same world except for the queue, which is left as it was when
    nobody calls. *)
Theorem pass_is_undisturbed (H : Host) (ph : Phase) (t : TaskData)
    (xs : list Image) (fuel i : nat) (w : World) :
  isRunning w = true ->
  batchLoop (undisturbed H) fuel ph t xs i w =
  match batchLoop H fuel ph t xs i w with
  | Some (w', evs) => Some (set_queued (queuedImages w) w', evs)
  | None => None
  end.
Proof.
  intros Hrunning.
  rewrite <- (batchLoop_queue H t ph xs (queuedImages w) fuel i w Hrunning).
  destruct w; reflexivity.
Qed.

Lemma pass_is_undisturbed_witness :
  isRunning running = true /\
  batchLoop (undisturbed host_busy) 5 Primary (task_of [img "a"] 10 1)
            [img "a"] 0 running =
  match batchLoop host_busy 5 Primary (task_of [img "a"] 10 1)
                  [img "a"] 0 running with
  | Some (w', evs) => Some (set_queued (queuedImages running) w', evs)
  | None => None
  end.
Proof.
  split; [reflexivity |].
  apply (pass_is_undisturbed host_busy Primary (task_of [img "a"] 10 1)
           [img "a"] 5 0 running).
  reflexivity.
Defined.

(** *** What the failure callback receives *)



